(** * Avalon enclave manager: work-order lifecycle and KME handshake

    A shallow embedding of
    - [singleton/enclave_manager.py]: the boot sweep [manager_on_boot], the
      steady-state transition [process_work_order_by_id] and the receipt
      ledger [__update_receipt];
    - [wpe/wpe_requester.py] and [wpe/wpe_enclave_manager.py]: the three
      KME requests and [_create_signup_data].

    Python values that travel through [json.loads]/[json.dumps] are the
    inductive [json]; exceptions are the [Raise] case of [result]; the
    key-value store is a finite map from (table, key) to strings, and every
    store call is recorded in a trace so that the order of writes can be
    stated. *)

From Stdlib Require Import QArith.QArith_base Strings.Ascii.
From stdpp Require Import gmap strings list fin_maps sorting.

Set Warnings "-register-all".

Local Open Scope string_scope.
Local Open Scope Z_scope.
Local Open Scope list_scope.

(** ** Python values and exceptions *)

Inductive json :=
| JNull
| JBool (b : bool)
| JInt (n : Z)
| JFloat (q : Q)
| JStr (s : string)
| JArr (l : list json)
| JObj (kvs : list (string * json)).

Inductive exn :=
| TypeError
| KeyError
| IndexError
| NameError
| UnboundLocalError
| ValueError
| AttributeError
| ExternalError (msg : string).

Inductive result (A : Type) :=
| Ret (a : A)
| Raise (e : exn).
Arguments Ret {A} a.
Arguments Raise {A} e.

(** [str(e)]. *)
Definition exn_str (e : exn) : string :=
  match e with
  | TypeError => "TypeError"
  | KeyError => "KeyError"
  | IndexError => "IndexError"
  | NameError => "NameError"
  | UnboundLocalError => "UnboundLocalError"
  | ValueError => "ValueError"
  | AttributeError => "AttributeError"
  | ExternalError msg => msg
  end.

(** First binding of [k] in the items of a dict. *)
Fixpoint assoc (k : string) (kvs : list (string * json)) : option json :=
  match kvs with
  | [] => None
  | (k', v) :: rest => if String.eqb k k' then Some v else assoc k rest
  end.

(** Functional update of a dict: rebinding keeps the position, a new key
    goes last. *)
Fixpoint assoc_set (k : string) (v : json) (kvs : list (string * json))
  : list (string * json) :=
  match kvs with
  | [] => [(k, v)]
  | (k', v') :: rest =>
      if String.eqb k k' then (k, v) :: rest else (k', v') :: assoc_set k v rest
  end.

(** [needle in haystack] on two [str]. *)
Fixpoint is_substring (needle haystack : string) : bool :=
  String.prefix needle haystack ||
  match haystack with
  | EmptyString => false
  | String _ rest => is_substring needle rest
  end.

(** [v == s] for a [str] constant [s]. *)
Definition py_eq_str (v : json) (s : string) : bool :=
  match v with
  | JStr s' => String.eqb s' s
  | _ => false
  end.

(** [v == n] for an [int] constant [n] ([bool] is a subclass of [int], and
    a float equals the integer of the same value). *)
Definition py_eq_int (v : json) (n : Z) : bool :=
  match v with
  | JInt m => Z.eqb m n
  | JBool b => Z.eqb (Z.b2z b) n
  | JFloat q => Qeq_bool q (inject_Z n)
  | _ => false
  end.

(** [k in v] for a [str] constant [k]. *)
Definition py_contains (k : string) (v : json) : result bool :=
  match v with
  | JObj kvs => Ret (bool_decide (is_Some (assoc k kvs)))
  | JArr l => Ret (existsb (fun x => py_eq_str x k) l)
  | JStr s => Ret (is_substring k s)
  | JNull | JBool _ | JInt _ | JFloat _ => Raise TypeError
  end.

(** [v[k]] for a [str] constant [k]. *)
Definition py_getitem (v : json) (k : string) : result json :=
  match v with
  | JObj kvs =>
      match assoc k kvs with
      | Some x => Ret x
      | None => Raise KeyError
      end
  | _ => Raise TypeError
  end.

(** [len(v)]. *)
Definition py_len (v : json) : result Z :=
  match v with
  | JObj kvs => Ret (Z.of_nat (length kvs))
  | JArr l => Ret (Z.of_nat (length l))
  | JStr s => Ret (Z.of_nat (String.length s))
  | JNull | JBool _ | JInt _ | JFloat _ => Raise TypeError
  end.

(** Position [i] of a sequence of length [n], negative indices counting from
    the end. *)
Definition py_index (n : nat) (i : Z) : option nat :=
  let j := if Z.ltb i 0 then i + Z.of_nat n else i in
  if Z.leb 0 j && Z.ltb j (Z.of_nat n) then Some (Z.to_nat j) else None.

(** [v[i]] for an [int] [i]; the keys of a parsed object are all [str]. *)
Definition py_getitem_int (v : json) (i : Z) : result json :=
  match v with
  | JArr l =>
      match py_index (length l) i with
      | Some j => match l !! j with Some x => Ret x | None => Raise IndexError end
      | None => Raise IndexError
      end
  | JStr s =>
      match py_index (String.length s) i with
      | Some j =>
          match String.get j s with
          | Some c => Ret (JStr (String c EmptyString))
          | None => Raise IndexError
          end
      | None => Raise IndexError
      end
  | JObj _ => Raise KeyError
  | JNull | JBool _ | JInt _ | JFloat _ => Raise TypeError
  end.

(** [v[k] = x]. *)
Definition py_setitem (v : json) (k : string) (x : json) : result json :=
  match v with
  | JObj kvs => Ret (JObj (assoc_set k x kvs))
  | _ => Raise TypeError
  end.

(** [v[k1][k2] = x]. *)
Definition py_setitem2 (v : json) (k1 k2 : string) (x : json) : result json :=
  match py_getitem v k1 with
  | Ret inner =>
      match py_setitem inner k2 x with
      | Ret inner' => py_setitem v k1 inner'
      | Raise e => Raise e
      end
  | Raise e => Raise e
  end.

(** [v.append(x)]. *)
Definition py_append (v : json) (x : json) : result json :=
  match v with
  | JArr l => Ret (JArr (l ++ [x]))
  | _ => Raise AttributeError
  end.

(** Truth value of what [kv_helper.get] returns: [None] and the empty
    string are false. *)
Definition truthy (v : option string) : bool :=
  match v with
  | Some s => negb (String.eqb s "")
  | None => false
  end.

(** ** A monad for code that mutates a state, records events and may raise *)

Definition M (St Ev A : Type) : Type := St -> result A * St * list Ev.

Section Monad.
Context {St Ev : Type}.

Definition ret {A} (a : A) : M St Ev A := fun s => (Ret a, s, []).

Definition raise {A} (e : exn) : M St Ev A := fun s => (Raise e, s, []).

Definition bind {A B} (m : M St Ev A) (f : A -> M St Ev B) : M St Ev B :=
  fun s =>
    match m s with
    | (Ret a, s1, tr1) =>
        match f a s1 with
        | (r, s2, tr2) => (r, s2, tr1 ++ tr2)
        end
    | (Raise e, s1, tr1) => (Raise e, s1, tr1)
    end.

(** A pure computation that may raise. *)
Definition lift {A} (r : result A) : M St Ev A := fun s => (r, s, []).

(** [try: m  except Exception: h]. *)
Definition try_except {A} (m : M St Ev A) (h : exn -> M St Ev A) : M St Ev A :=
  fun s =>
    match m s with
    | (Ret a, s1, tr1) => (Ret a, s1, tr1)
    | (Raise e, s1, tr1) =>
        match h e s1 with
        | (r, s2, tr2) => (r, s2, tr1 ++ tr2)
        end
    end.

(** [for x in l: body x]. *)
Fixpoint for_each {A} (l : list A) (body : A -> M St Ev unit) : M St Ev unit :=
  match l with
  | [] => ret tt
  | x :: rest => bind (body x) (fun _ => for_each rest body)
  end.

Definition outcome {A} (x : result A * St * list Ev) : result A := x.1.1.
Definition final {A} (x : result A * St * list Ev) : St := x.1.2.
Definition trace {A} (x : result A * St * list Ev) : list Ev := x.2.
End Monad.

Declare Scope py_scope.
Delimit Scope py_scope with py.
Notation "x <- m ;; k" := (bind m (fun x => k))
  (at level 90, m at next level, right associativity) : py_scope.
Notation "m ;;; k" := (bind m (fun _ => k))
  (at level 90, right associativity) : py_scope.
Local Open Scope py_scope.

(** ** The key-value store

    Modelled from the spec: the store connector ([database.connector]) is not
    among the sources.  It is a durable mapping table -> (key -> value) with
    [set], [get], [remove] and [lookup(table) -> keys]; [get] answers [None]
    for a missing key, and [lookup] lists the keys of a table in key order.
    The calls themselves do not raise here, so the handlers that the manager
    wraps around them (lines 176-178, 200-202 and 228-232) are never
    entered: every statement below is about the runs in which the store
    answers each call, and says nothing of a run in which a store call
    fails. *)

Definition kv_sorted_keys (t : string) (s : gmap (string * string) string)
  : list string :=
  merge_sort String.le
    (omap (fun tk : string * string =>
             if decide (tk.1 = t) then Some tk.2 else None)
          (map_to_list s).*1).

Inductive kv_op :=
| KvSet (t k v : string)
| KvGet (t k : string)
| KvRemove (t k : string)
| KvLookup (t : string).

Definition KV (A : Type) : Type := M (gmap (string * string) string) kv_op A.

Definition kv_set (t k v : string) : KV unit :=
  fun s => (Ret tt, <[(t, k) := v]> s, [KvSet t k v]).

Definition kv_get (t k : string) : KV (option string) :=
  fun s => (Ret (s !! (t, k)), s, [KvGet t k]).

Definition kv_remove (t k : string) : KV unit :=
  fun s => (Ret tt, delete (t, k) s, [KvRemove t k]).

Definition kv_lookup (t : string) : KV (list string) :=
  fun s => (Ret (kv_sorted_keys t s), s, [KvLookup t]).

(** The effect of one recorded store call. *)
Definition apply_op (s : gmap (string * string) string) (o : kv_op)
  : gmap (string * string) string :=
  match o with
  | KvSet t k v => <[(t, k) := v]> s
  | KvRemove t k => delete (t, k) s
  | KvGet _ _ | KvLookup _ => s
  end.

Definition apply_ops (s : gmap (string * string) string) (tr : list kv_op)
  : gmap (string * string) string :=
  foldl apply_op s tr.

(** ** External collaborators of the singleton manager

    [json], the enclave, the receipt SDK, the crypto helpers and the status
    enumerations of [error_code.error_status] and [avalon_sdk] are imported
    by the manager and are not among the sources: they enter as the fields
    of [Externals].  The enumeration members used in comparisons are
    integers. *)

Class JsonCodec := {
  (** [json.loads]; [None] stands for the [ValueError] of a malformed text. *)
  json_loads : string -> option json;
  (** [json.dumps(v, indent=...)]. *)
  json_dumps : option nat -> json -> string
}.

Class Externals := {
  (** [SgxWorkOrderRequest(enclave_data, s).execute()]. *)
  sgx_execute : string -> result json;
  (** [WorkOrderReceiptRequest().update_receipt(id, type, data, private_key)]. *)
  sdk_update_receipt : string -> Z -> json -> result json;
  strip_begin_end_public_key : string -> string;
  sha256_hexdigest : string -> string;
  WorkOrderStatus_FAILED : Z;
  WorkOrderStatus_PENDING_value : Z;
  ReceiptCreateStatus_FAILED_value : Z;
  ReceiptCreateStatus_PROCESSED_value : Z;
  ReceiptCreateStatus_COMPLETED_value : Z;
  WorkerType_TEE_SGX_value : Z;
  WorkerStatus_ACTIVE_value : Z
}.

(** The [WorkerConfig] block of the configuration. *)
Record WorkerConfig := {
  ProofDataType : json;
  OrganizationId : json;
  ApplicationTypeId : json;
  WorkOrderSyncUri : json;
  WorkOrderAsyncUri : json;
  WorkOrderPullUri : json;
  WorkOrderNotifyUri : json;
  ReceiptInvocationUri : json;
  WorkOrderInvocationAddress : json;
  ReceiptInvocationAddress : json;
  FromAddress : json;
  HashingAlgorithm : json;
  SigningAlgorithm : json;
  KeyEncryptionAlgorithm : json;
  DataEncryptionAlgorithm : json;
  workOrderPayloadFormats : json
}.

(** The fields of an [EnclaveManager] instance that the modelled methods
    read. *)
Record EnclaveManager := {
  config : WorkerConfig;
  verifying_key : json;
  encryption_key : json;
  encryption_key_signature : json;
  enclave_id : string;
  extended_measurements : json;
  proof_data : json
}.

Definition proof_data_type (self : EnclaveManager) : json :=
  ProofDataType (config self).

Definition rbind {A B} (r : result A) (f : A -> result B) : result B :=
  match r with
  | Ret a => f a
  | Raise e => Raise e
  end.

Notation "x <~ r ;; k" := (rbind r (fun x => k))
  (at level 90, r at next level, right associativity) : py_scope.

(** [json.loads] as an expression: a malformed text raises [ValueError]. *)
Definition loads {codec : JsonCodec} (s : string) : result json :=
  match json_loads s with
  | Some v => Ret v
  | None => Raise ValueError
  end.

Section Singleton.
Context {codec : JsonCodec} {ext : Externals}.

(** [validate_request]. *)
Definition validate_request (wo_request : string) : bool :=
  match json_loads wo_request with
  | Some _ => true
  | None => false
  end.

(** [_create_json_worker]. *)
Definition _create_json_worker (enclave_data : EnclaveManager)
    (config : WorkerConfig) : string :=
  let worker_type_data := JObj [
    ("verificationKey", verifying_key enclave_data);
    ("extendedMeasurements", extended_measurements enclave_data);
    ("proofDataType", proof_data_type enclave_data);
    ("proofData", proof_data enclave_data);
    ("encryptionKey", encryption_key enclave_data);
    ("encryptionKeySignature", encryption_key_signature enclave_data)] in
  let details_info := JObj [
    ("workOrderSyncUri", WorkOrderSyncUri config);
    ("workOrderAsyncUri", WorkOrderAsyncUri config);
    ("workOrderPullUri", WorkOrderPullUri config);
    ("workOrderNotifyUri", WorkOrderNotifyUri config);
    ("receiptInvocationUri", ReceiptInvocationUri config);
    ("workOrderInvocationAddress", WorkOrderInvocationAddress config);
    ("receiptInvocationAddress", ReceiptInvocationAddress config);
    ("fromAddress", FromAddress config);
    ("hashingAlgorithm", HashingAlgorithm config);
    ("signingAlgorithm", SigningAlgorithm config);
    ("keyEncryptionAlgorithm", KeyEncryptionAlgorithm config);
    ("dataEncryptionAlgorithm", DataEncryptionAlgorithm config);
    ("workOrderPayloadFormats", workOrderPayloadFormats config);
    ("workerTypeData", worker_type_data)] in
  let worker_info := JObj [
    ("workerType", JInt WorkerType_TEE_SGX_value);
    ("organizationId", OrganizationId config);
    ("applicationTypeId", ApplicationTypeId config);
    ("details", details_info);
    ("status", JInt WorkerStatus_ACTIVE_value)] in
  json_dumps None worker_info.

(** [_execute_work_order].  [json.dumps] of a parsed value does not raise,
    so the inner handler is never entered; the outer handler runs when the
    enclave call raises, and there its first statement reads the local
    [wo_response] before any assignment to it. *)
Definition _execute_work_order (input_json_str : string) : result string :=
  match sgx_execute input_json_str with
  | Ret wo_response => Ret (json_dumps (Some 4%nat) wo_response)
  | Raise e =>
      wo_response <~ Raise UnboundLocalError ;;
      wo_response <~ py_setitem2 wo_response "Response" "Status"
                       (JInt WorkOrderStatus_FAILED) ;;
      wo_response <~ py_setitem2 wo_response "Response" "Message"
                       (JStr (exn_str e)) ;;
      Ret (json_dumps None wo_response)
  end.

(** The test
    ["Response" in wo_resp and
     wo_resp["Response"]["Status"] == WorkOrderStatus.FAILED]. *)
Definition response_failed (wo_resp : json) : result bool :=
  has <~ py_contains "Response" wo_resp ;;
  if has : bool then
    r <~ py_getitem wo_resp "Response" ;;
    st <~ py_getitem r "Status" ;;
    Ret (py_eq_int st WorkOrderStatus_FAILED)
  else Ret false.

(** The test
    ["error" in wo_json_resp and
     wo_json_resp["error"]["code"] != WorkOrderStatus.PENDING.value]. *)
Definition response_is_error (wo_json_resp : json) : result bool :=
  has <~ py_contains "error" wo_json_resp ;;
  if has : bool then
    err <~ py_getitem wo_json_resp "error" ;;
    code <~ py_getitem err "code" ;;
    Ret (negb (py_eq_int code WorkOrderStatus_PENDING_value))
  else Ret false.

(** [EnclaveManager.__update_receipt]. *)
Definition __update_receipt (wo_id : string) (wo_json_resp : json) : KV unit :=
  receipt_entry <- kv_get "wo-receipts" wo_id ;;
  if truthy receipt_entry then
    is_error <- lift (response_is_error wo_json_resp) ;;
    let update_type :=
      if is_error : bool then ReceiptCreateStatus_FAILED_value
      else ReceiptCreateStatus_PROCESSED_value in
    wo_receipt <- lift (sdk_update_receipt wo_id update_type wo_json_resp) ;;
    updates_to_receipt <- kv_get "wo-receipt-updates" wo_id ;;
    match updates_to_receipt with
    | None =>
        updated_receipt <- lift (py_append (JArr []) wo_receipt) ;;
        kv_set "wo-receipt-updates" wo_id (json_dumps None updated_receipt)
    | Some text =>
        updated_receipt <- lift (loads text) ;;
        n <- lift (py_len updated_receipt) ;;
        last_receipt <- lift (py_getitem_int updated_receipt (n - 1)) ;;
        update <- lift (py_getitem last_receipt "updateType") ;;
        if py_eq_int update ReceiptCreateStatus_COMPLETED_value then
          ret tt
        else
          updated_receipt <- lift (py_append updated_receipt wo_receipt) ;;
          kv_set "wo-receipt-updates" wo_id (json_dumps None updated_receipt)
    end
  else ret tt.

(** The body of the loop over [processing_list] in [manager_on_boot]. *)
Definition boot_step (wo : string) : KV unit :=
  wo_json_resp <- kv_get "wo-responses" wo ;;
  wo_processed <- kv_get "wo-processed" wo ;;
  match wo_json_resp with
  | Some text =>
      match json_loads text with
      | None =>
          (if wo_processed is None
           then kv_set "wo-processed" wo "FAILED" else ret tt) ;;;
          kv_remove "wo-processing" wo
      | Some wo_resp =>
          failed <- lift (response_failed wo_resp) ;;
          if failed : bool then
            (if wo_processed is None
             then kv_set "wo-processed" wo "FAILED" else ret tt) ;;;
            kv_remove "wo-processing" wo
          else
            wo_receipt <- kv_get "wo-receipts" wo ;;
            (if truthy wo_receipt
             then __update_receipt wo (JStr text) else ret tt) ;;;
            (if wo_processed is None
             then kv_set "wo-processed" wo "SUCCESS" else ret tt) ;;;
            kv_remove "wo-processing" wo
      end
  | None =>
      kv_set "wo-scheduled" wo "SCHEDULED" ;;;
      kv_remove "wo-processing" wo
  end.

(** [EnclaveManager.manager_on_boot]. *)
Definition manager_on_boot (self : EnclaveManager) : KV unit :=
  workers_list <- kv_lookup "workers" ;;
  (if bool_decide (length workers_list = 0%nat) then ret tt
   else for_each workers_list (fun worker => kv_remove "workers" worker)) ;;;
  let worker_info := _create_json_worker self (config self) in
  let worker_id :=
    sha256_hexdigest (strip_begin_end_public_key (enclave_id self)) in
  kv_set "workers" worker_id worker_info ;;;
  processing_list <- kv_lookup "wo-processing" ;;
  if bool_decide (length processing_list = 0%nat) then ret tt
  else for_each processing_list boot_step.

(** The module has no global named [wo_response], and
    [process_work_order_by_id] never assigns one. *)
Definition global_wo_response : result json := Raise NameError.

(** [EnclaveManager.process_work_order_by_id]; the value is what the method
    returns ([None] or the parsed response). *)
Definition process_work_order_by_id (wo_id : string) : KV (option json) :=
  claimed <-
    try_except
      (kv_set "wo-processing" wo_id "PROCESSING" ;;;
       wo_json_req <- kv_get "wo-requests" wo_id ;;
       match wo_json_req with
       | None => kv_remove "wo-processing" wo_id ;;; ret None
       | Some text => ret (Some text)
       end)
      (fun _ => kv_remove "wo-processing" wo_id ;;; ret None) ;;
  match claimed with
  | None => ret None
  | Some wo_json_req =>
      kv_set "wo-processing" wo_id "PROCESSING" ;;;
      kv_remove "wo-scheduled" wo_id ;;;
      if negb (validate_request wo_json_req) then
        wo_response <- lift global_wo_response ;;
        wo_response <- lift (py_setitem2 wo_response "Response" "Status"
                               (JInt WorkOrderStatus_FAILED)) ;;
        wo_response <- lift (py_setitem2 wo_response "Response" "Message"
                               (JStr "Workorder JSON request is invalid")) ;;
        kv_set "wo-responses" wo_id (json_dumps None wo_response) ;;;
        kv_set "wo-processed" wo_id "FAILED" ;;;
        kv_remove "wo-processing" wo_id ;;;
        ret None
      else
        wo_json_resp <- lift (_execute_work_order wo_json_req) ;;
        wo_resp <- lift (loads wo_json_resp) ;;
        __update_receipt wo_id wo_resp ;;;
        failed <- lift (response_failed wo_resp) ;;
        if failed : bool then
          kv_set "wo-processed" wo_id "FAILED" ;;;
          kv_set "wo-responses" wo_id wo_json_resp ;;;
          kv_remove "wo-processing" wo_id ;;;
          ret None
        else
          kv_set "wo-processed" wo_id "SUCCESS" ;;;
          kv_set "wo-responses" wo_id wo_json_resp ;;;
          kv_remove "wo-processing" wo_id ;;;
          ret (Some wo_resp)
  end.

(** [EnclaveManager.process_work_orders]. *)
Definition process_work_orders : KV unit :=
  list_of_workorders <- kv_lookup "wo-scheduled" ;;
  match list_of_workorders with
  | [] => ret tt
  | _ => for_each list_of_workorders
           (fun wo_id => process_work_order_by_id wo_id ;;; ret tt)
  end.

(** [EnclaveManager.process_work_order_sync]: the loop returns in its first
    iteration. *)
Definition process_work_order_sync (process_wo_id : string)
  : KV (option json) :=
  list_of_workorders <- kv_lookup "wo-scheduled" ;;
  match list_of_workorders with
  | [] => ret None
  | wo_id :: _ =>
      if bool_decide (wo_id = process_wo_id)
      then process_work_order_by_id wo_id
      else ret None
  end.

(** The stored update sequence of [wo_id] ends with an update whose
    [updateType] is COMPLETED. *)
Definition receipt_frozen (s : gmap (string * string) string)
    (wo_id : string) : bool :=
  match s !! ("wo-receipt-updates", wo_id) with
  | Some text =>
      match json_loads text with
      | Some (JArr arr) =>
          match last arr with
          | Some u =>
              match py_getitem u "updateType" with
              | Ret update =>
                  py_eq_int update ReceiptCreateStatus_COMPLETED_value
              | Raise _ => false
              end
          | None => false
          end
      | _ => false
      end
  | None => false
  end.

Definition boot_written : list string :=
  ["wo-processed"; "wo-processing"; "wo-scheduled"; "wo-receipt-updates"].

Definition remove_all (t : string) (l : list string)
    (s : gmap (string * string) string) : gmap (string * string) string :=
  foldl (fun acc w => delete (t, w) acc) s l.

Definition worker_id_of (self : EnclaveManager) : string :=
  sha256_hexdigest (strip_begin_end_public_key (enclave_id self)).

(** The store once the workers table has been cleared and republished. *)
Definition workers_refreshed (self : EnclaveManager)
    (s : gmap (string * string) string) : gmap (string * string) string :=
  <[("workers", worker_id_of self) :=
      _create_json_worker self (config self)]>
    (remove_all "workers" (kv_sorted_keys "workers" s) s).

Definition is_remove (o : kv_op) : bool :=
  match o with
  | KvRemove _ _ => true
  | _ => false
  end.
End Singleton.

(** ** The KME handshake ([wpe_requester.py], [wpe_enclave_manager.py]) *)

(** [error_code.error_status.SignatureStatus] is not among the sources; the
    code names only [PASSED], every other member is [NOT_PASSED]. *)
Inductive SignatureStatus :=
| PASSED
| NOT_PASSED (member : string).

(** The values drawn from [crypto_utils.generate_key], [generate_iv],
    [secrets.token_hex] and [random.randint] during one request. *)
Record Entropy := {
  session_key : string;
  session_iv : string;
  work_order_id : string;
  requester_id : string;
  requester_nonce : string;
  worker_id : string;
  wo_request_id : Z;
  rpc_request_id : Z
}.

(** The arguments handed to [WorkOrderParams]. *)
Record WorkOrderParamsArgs := {
  wop_work_order_id : string;
  wop_worker_id : string;
  wop_workload_id_hex : string;
  wop_requester_id : string;
  wop_session_key : string;
  wop_session_iv : string;
  wop_requester_nonce : string;
  wop_result_uri : string;
  wop_notify_uri : string;
  wop_worker_encryption_key : string;
  wop_data_encryption_algorithm : string;
  wop_in_data : string
}.

(** Collaborators of the requester and of the WPE manager that are not among
    the sources: the HTTP client, the signature and crypto helpers, the
    work-order SDK and the enclave bindings. *)
Class KmeExternals := {
  (** [HttpJrpcClient._postmsg]: the response, or the exception it raises. *)
  _postmsg : string -> result json;
  (** [ClientSignature().verify_signature(result, key)]. *)
  verify_signature : json -> string -> result SignatureStatus;
  (** [crypto_utils.decrypted_response(result, session_key, session_iv)]. *)
  decrypted_response : json -> string -> string -> result json;
  (** [s.encode("UTF-8").hex()]. *)
  utf8_hex : string -> string;
  (** [WorkOrderParams(...)], [add_in_data], [add_encrypted_request_hash]
      and [json.loads(wo_params.to_string())]. *)
  work_order_params : WorkOrderParamsArgs -> result json;
  (** [WorkOrderProcessorEnclaveInfo(config, EnclaveType.WPE)]. *)
  new_enclave_info : result unit;
  (** [SignupInfoWPE().GenerateNonce(n)]. *)
  GenerateNonce : Z -> string;
  (** [SignupInfoWPE().VerifyUniqueIdSignature(key, signature)]. *)
  VerifyUniqueIdSignature : string -> string -> Z;
  (** [signup_data.get_enclave_measurement()]. *)
  get_enclave_measurement : result string;
  (** [signup_data.create_enclave_signup_data(key)]: the signup data once
      created. *)
  create_enclave_signup_data : string -> result json
}.

(** What the handshake does to the outside world. *)
Inductive kme_event :=
| Posted (json_rpc_request : json)
| CheckedUniqueId (key signature : string)
| CreatedSignupData (key : string).

(** The fields [_create_signup_data] assigns on the manager. *)
Record WpeManager := {
  _unique_verification_key : option string;
  _unique_verification_key_signature : option string;
  mr_enclave : option string
}.

(** [s.split(sep)] for a one-character separator. *)
Fixpoint py_split (sep : Ascii.ascii) (s : string) : list string :=
  match s with
  | EmptyString => [EmptyString]
  | String c rest =>
      let parts := py_split sep rest in
      if Ascii.eqb c sep then EmptyString :: parts
      else match parts with
           | p :: ps => String c p :: ps
           | [] => [String c EmptyString]
           end
  end.

(** [response.split(' ')[i]]; only a [str] has [split]. *)
Definition split_field (response : json) (i : nat) : result string :=
  match response with
  | JStr s =>
      match py_split " "%char s !! i with
      | Some x => Ret x
      | None => Raise IndexError
      end
  | _ => Raise AttributeError
  end.

Section Kme.
Context {codec : JsonCodec} {kme : KmeExternals} {St : Type}.

(** [WPERequester._get_request_json]. *)
Definition _get_request_json (rnd : Entropy) (method : string) : json :=
  JObj [("jsonrpc", JStr "2.0");
        ("method", JStr method);
        ("id", JInt (rpc_request_id rnd))].

(** [WPERequester._construct_wo_req]. *)
Definition _construct_wo_req (rnd : Entropy) (in_data workload_id : string)
    (encryption_key session_key session_iv : string) : result json :=
  let workload_id_hex := utf8_hex workload_id in
  params <~ work_order_params
    {| wop_work_order_id := work_order_id rnd;
       wop_worker_id := worker_id rnd;
       wop_workload_id_hex := workload_id_hex;
       wop_requester_id := requester_id rnd;
       wop_session_key := session_key;
       wop_session_iv := session_iv;
       wop_requester_nonce := requester_nonce rnd;
       wop_result_uri := " ";
       wop_notify_uri := " ";
       wop_worker_encryption_key := encryption_key;
       wop_data_encryption_algorithm := "AES-GCM-256";
       wop_in_data := in_data |} ;;
  Ret (JObj [("jsonrpc", JStr "2.0");
             ("method", JStr workload_id);
             ("id", JInt (wo_request_id rnd));
             ("params", params)]).

(** [WPERequester._verify_res_signature]. *)
Definition _verify_res_signature (work_order_res : json)
    (worker_verification_key : string) : result bool :=
  status <~ verify_signature work_order_res worker_verification_key ;;
  match status with
  | PASSED => Ret true
  | NOT_PASSED _ => Ret false
  end.

(** [WPERequester._post_and_get_result]: no handler surrounds the call of
    the HTTP client. *)
Definition _post_and_get_result (json_rpc_request : json)
  : M St kme_event json :=
  fun st =>
    (_postmsg (json_dumps None json_rpc_request), st,
     [Posted json_rpc_request]).

(** [WPERequester.get_unique_verification_key]; Python's [None] is
    [JNull]. *)
Definition get_unique_verification_key (rnd : Entropy)
    (verification_key_nonce encryption_key verifying_key : string)
  : M St kme_event json :=
  let workload_id := "kme-uid" in
  let in_data :=
    json_dumps None (JObj [("nonce", JStr verification_key_nonce)]) in
  let session_key := session_key rnd in
  let session_iv := session_iv rnd in
  wo_req <- lift (_construct_wo_req rnd in_data workload_id encryption_key
                    session_key session_iv) ;;
  json_rpc_request <-
    lift (py_setitem (_get_request_json rnd "GetUniqueVerificationKey")
            "params" (JObj [("wo_request", wo_req)])) ;;
  response <- _post_and_get_result json_rpc_request ;;
  has_result <- lift (py_contains "result" response) ;;
  if has_result : bool then
    wo_response_json <- lift (py_getitem response "result") ;;
    verified <- lift (_verify_res_signature wo_response_json verifying_key) ;;
    if verified : bool then
      decrypted_res <-
        lift (decrypted_response wo_response_json session_key session_iv) ;;
      first <- lift (py_getitem_int decrypted_res 0) ;;
      lift (py_getitem first "data")
    else ret JNull
  else ret JNull.

(** [WPERequester.register_wo_processor]. *)
Definition register_wo_processor (rnd : Entropy)
    (attestation_report : json) (encryption_key verifying_key : string)
  : M St kme_event json :=
  let workload_id := "kme-reg" in
  let in_data :=
    json_dumps None (JObj [("attestation_report", attestation_report)]) in
  let session_key := session_key rnd in
  let session_iv := session_iv rnd in
  wo_request <- lift (_construct_wo_req rnd in_data workload_id
                        encryption_key session_key session_iv) ;;
  json_rpc_request <-
    lift (py_setitem (_get_request_json rnd "RegisterWorkOrderProcessor")
            "params" (JObj [("wo_request", wo_request)])) ;;
  response <- _post_and_get_result json_rpc_request ;;
  has_result <- lift (py_contains "result" response) ;;
  if has_result : bool then
    wo_response_json <- lift (py_getitem response "result") ;;
    verified <- lift (_verify_res_signature wo_response_json verifying_key) ;;
    if verified : bool then
      lift (decrypted_response wo_response_json session_key session_iv)
    else ret JNull
  else ret JNull.

(** [WPERequester.preprocess_work_order]. *)
Definition preprocess_work_order (rnd : Entropy) (wo_request : json)
    (encryption_key verifying_key : string)
  : M St kme_event json :=
  json_rpc_request <-
    lift (py_setitem (_get_request_json rnd "PreProcessWorkOrder")
            "params" (JObj [("wo_request", wo_request);
                            ("encryption_key", JStr encryption_key)])) ;;
  response <- _post_and_get_result json_rpc_request ;;
  ret JNull.
End Kme.

Section WpeManager.
Context {codec : JsonCodec} {kme : KmeExternals}.

(** The manager imports [WPERequester] from [wpe_common], a module that is
    not among the sources, and calls its [get_unique_verification_key]
    with the nonce alone; the method is a parameter here, and
    [wpe_requester_with] supplies the one of [wpe_requester.py] with the
    two keys fixed. *)
Variable requester_get_unique_verification_key :
  string -> M WpeManager kme_event json.

(** [WorkOrderProcessorEnclaveManager._create_signup_data]; [None] is the
    method's [return None], [Some d] the signup data it returns. *)
Definition _create_signup_data : M WpeManager kme_event (option json) :=
  lift new_enclave_info ;;;
  let verification_key_nonce := GenerateNonce 32 in
  response <- requester_get_unique_verification_key verification_key_nonce ;;
  match response with
  | JNull => ret None
  | _ =>
      key <- lift (split_field response 1) ;;
      (fun st => (Ret tt,
                  {| _unique_verification_key := Some key;
                     _unique_verification_key_signature :=
                       _unique_verification_key_signature st;
                     mr_enclave := mr_enclave st |}, [])) ;;;
      signature <- lift (split_field response 2) ;;
      (fun st => (Ret tt,
                  {| _unique_verification_key := _unique_verification_key st;
                     _unique_verification_key_signature := Some signature;
                     mr_enclave := mr_enclave st |}, [])) ;;;
      result <- (fun st => (Ret (VerifyUniqueIdSignature key signature), st,
                            [CheckedUniqueId key signature])) ;;
      if negb (Z.eqb result 0) then ret None
      else
        measurement <- lift get_enclave_measurement ;;
        (fun st => (Ret tt,
                    {| _unique_verification_key := _unique_verification_key st;
                       _unique_verification_key_signature :=
                         _unique_verification_key_signature st;
                       mr_enclave := Some measurement |}, [])) ;;;
        signup_data <- (fun st => (create_enclave_signup_data key, st,
                                   [CreatedSignupData key])) ;;
        ret (Some signup_data)
  end.

(** Modelled from the spec: the caller that sequences the handshake steps
    lives in the manager base classes, which are not among the sources.
    Section 4.4: step 1 obtains the verified key, step 2 registers the
    worker, and a null or absent result of a step is total step failure
    that halts the handshake.  [Some d] is a completed handshake. *)
Definition run_handshake (register : json -> M WpeManager kme_event json)
  : M WpeManager kme_event (option json) :=
  signup_data <- _create_signup_data ;;
  match signup_data with
  | None => ret None
  | Some d =>
      registered <- register d ;;
      match registered with
      | JNull => ret None
      | _ => ret (Some d)
      end
  end.
End WpeManager.

(** The requester of [wpe_requester.py] with the worker's keys fixed. *)
Definition wpe_requester_with {codec : JsonCodec} {kme : KmeExternals}
    (rnd : Entropy)
    (encryption_key verifying_key : string) (nonce : string)
  : M WpeManager kme_event json :=
  get_unique_verification_key rnd nonce encryption_key verifying_key.

(** The JSON-RPC request a step posts: [_get_request_json] with its
    ["params"] filled in. *)
Definition rpc_request (rnd : Entropy) (method : string) (params : json)
  : json :=
  JObj [("jsonrpc", JStr "2.0");
        ("method", JStr method);
        ("id", JInt (rpc_request_id rnd));
        ("params", params)].

(** The [in_data] of the first step. *)
Definition nonce_in_data {codec : JsonCodec} (nonce : string) : string :=
  json_dumps None (JObj [("nonce", JStr nonce)]).

(** The [in_data] of the second step. *)
Definition report_in_data {codec : JsonCodec} (attestation_report : json)
  : string :=
  json_dumps None (JObj [("attestation_report", attestation_report)]).

(** The request of the third step. *)
Definition preprocess_request (rnd : Entropy) (wo_request : json)
    (encryption_key : string) : json :=
  rpc_request rnd "PreProcessWorkOrder"
    (JObj [("wo_request", wo_request);
           ("encryption_key", JStr encryption_key)]).

(** The manager once the received key and its signature are stored on it. *)
Definition with_unique_key (st : WpeManager) (key signature : string)
  : WpeManager :=
  {| _unique_verification_key := Some key;
     _unique_verification_key_signature := Some signature;
     mr_enclave := mr_enclave st |}.

(** ** Concrete collaborators for the scenarios of the specification

    A codec that knows the few texts of the scenarios, an enclave that
    answers every request with a result, and a KME that accepts one
    verifying key and one key signature, so that the statements below can
    be run on concrete stores. *)

Definition dq : string := String "034"%char EmptyString.

(** The text of [{"result": {}}]. *)
Definition ok_response_text : string :=
  String.append "{" (String.append dq (String.append "result"
    (String.append dq ": {}}"))).

(** The text of [[{"updateType": 1}]]. *)
Definition completed_updates_text : string :=
  String.append "[{" (String.append dq (String.append "updateType"
    (String.append dq ": 1}]"))).

(** The text of [{"Response": {}}]. *)
Definition statusless_response_text : string :=
  String.append "{" (String.append dq (String.append "Response"
    (String.append dq ": {}}"))).

Definition scenario_codec : JsonCodec := {|
  json_loads text :=
    if String.eqb text "{}" then Some (JObj [])
    else if String.eqb text "[]" then Some (JArr [])
    else if String.eqb text ok_response_text
      then Some (JObj [("result", JObj [])])
    else if String.eqb text completed_updates_text
      then Some (JArr [JObj [("updateType", JInt 1)]])
    else if String.eqb text statusless_response_text
      then Some (JObj [("Response", JObj [])])
    else None;
  json_dumps _ v :=
    match v with
    | JObj (("result", _) :: _) => ok_response_text
    | JArr [] => "[]"
    | JArr (_ :: _) => completed_updates_text
    | _ => "{}"
    end
|}.

Definition scenario_externals : Externals := {|
  sgx_execute _ := Ret (JObj [("result", JObj [])]);
  sdk_update_receipt wo_id update_type _ :=
    Ret (JObj [("workOrderId", JStr wo_id); ("updateType", JInt update_type)]);
  strip_begin_end_public_key key := key;
  sha256_hexdigest text := text;
  WorkOrderStatus_FAILED := 1;
  WorkOrderStatus_PENDING_value := 5;
  ReceiptCreateStatus_FAILED_value := 3;
  ReceiptCreateStatus_PROCESSED_value := 2;
  ReceiptCreateStatus_COMPLETED_value := 1;
  WorkerType_TEE_SGX_value := 1;
  WorkerStatus_ACTIVE_value := 1
|}.

Definition scenario_config : WorkerConfig := {|
  ProofDataType := JStr "TEE-SGX-IAS";
  OrganizationId := JStr "org";
  ApplicationTypeId := JStr "app";
  WorkOrderSyncUri := JStr "";
  WorkOrderAsyncUri := JStr "";
  WorkOrderPullUri := JStr "";
  WorkOrderNotifyUri := JStr "";
  ReceiptInvocationUri := JStr "";
  WorkOrderInvocationAddress := JStr "";
  ReceiptInvocationAddress := JStr "";
  FromAddress := JStr "";
  HashingAlgorithm := JStr "SHA-256";
  SigningAlgorithm := JStr "SECP256K1";
  KeyEncryptionAlgorithm := JStr "RSA-OAEP-3072";
  DataEncryptionAlgorithm := JStr "AES-GCM-256";
  workOrderPayloadFormats := JStr "JSON-RPC"
|}.

Definition scenario_self : EnclaveManager := {|
  config := scenario_config;
  verifying_key := JStr "verifying-key";
  encryption_key := JStr "encryption-key";
  encryption_key_signature := JStr "signature";
  enclave_id := "enclave-1";
  extended_measurements := JArr [];
  proof_data := JStr ""
|}.

(** Scenario A: [wo1] is scheduled with a well-formed request. *)
Definition scenario_A : gmap (string * string) string :=
  {[ ("wo-scheduled", "wo1") := "SCHEDULED"; ("wo-requests", "wo1") := "{}" ]}.

(** Scenario B: [wo2] is scheduled with a malformed request. *)
Definition scenario_B : gmap (string * string) string :=
  {[ ("wo-scheduled", "wo2") := "SCHEDULED";
     ("wo-requests", "wo2") := "{not json" ]}.

(** Scenario C: [wo3] was being processed when the manager stopped. *)
Definition scenario_C : gmap (string * string) string :=
  {[ ("wo-processing", "wo3") := "PROCESSING"; ("wo-requests", "wo3") := "{}" ]}.

(** A completed receipt for [wo1]. *)
Definition scenario_completed : gmap (string * string) string :=
  {[ ("wo-receipts", "wo1") := "receipt";
     ("wo-receipt-updates", "wo1") := completed_updates_text ]}.

(** Two interrupted work orders; the stored response of [wo0] is an object
    whose ["Response"] has no ["Status"]. *)
Definition scenario_bad_response : gmap (string * string) string :=
  {[ ("wo-processing", "wo0") := "PROCESSING";
     ("wo-responses", "wo0") := statusless_response_text;
     ("wo-processing", "wo3") := "PROCESSING" ]}.

(** A KME reached through the transport [post]. *)
Definition kme_behind (post : string -> result json) : KmeExternals := {|
  _postmsg := post;
  verify_signature _ key :=
    if String.eqb key "kme-key" then Ret PASSED else Ret (NOT_PASSED "FAILED");
  decrypted_response _ _ _ :=
    Ret (JArr [JObj [("data", JStr "ok unique-key forged-signature")]]);
  utf8_hex text := text;
  work_order_params _ := Ret (JObj []);
  new_enclave_info := Ret tt;
  GenerateNonce _ := "nonce";
  VerifyUniqueIdSignature _ signature :=
    if String.eqb signature "kme-signature" then 0 else 1;
  get_enclave_measurement := Ret "mr-enclave";
  create_enclave_signup_data key := Ret (JObj [("verifying_key", JStr key)])
|}.

(** The KME answers every request with a result. *)
Definition scenario_kme : KmeExternals :=
  kme_behind (fun _ => Ret (JObj [("result", JObj [])])).

(** The KME answers with an error object. *)
Definition refusing_kme : KmeExternals :=
  kme_behind (fun _ => Ret (JObj [("error", JObj [("code", JInt 2)])])).

(** The transport fails. *)
Definition unreachable_kme : KmeExternals :=
  kme_behind (fun _ => Raise (ExternalError "operation failed")).

(** The transport hands back [None]. *)
Definition silent_kme : KmeExternals :=
  kme_behind (fun _ => Ret JNull).

Definition scenario_entropy : Entropy := {|
  session_key := "session-key";
  session_iv := "session-iv";
  work_order_id := "a1";
  requester_id := "b2";
  requester_nonce := "c3";
  worker_id := "d4";
  wo_request_id := 7;
  rpc_request_id := 11
|}.

Definition fresh_manager : WpeManager := {|
  _unique_verification_key := None;
  _unique_verification_key_signature := None;
  mr_enclave := None
|}.

(** ** Vocabulary for the statements about the rest of the code *)

(** The tables [process_work_order_by_id] writes to. *)
Definition by_id_written : list string :=
  ["wo-processing"; "wo-scheduled"; "wo-processed"; "wo-responses";
   "wo-receipt-updates"].

(** The update type [__update_receipt] hands to the receipt SDK. *)
Definition receipt_update_type {ext : Externals} (is_error : bool) : Z :=
  if is_error then ReceiptCreateStatus_FAILED_value
  else ReceiptCreateStatus_PROCESSED_value.

(** The terminal status [process_work_order_by_id] and the boot sweep record
    for a response that passed or failed the failure test. *)
Definition terminal_status (failed : bool) : string :=
  if failed then "FAILED" else "SUCCESS".

(** What the boot sweep records for an entry whose stored response is
    [text] and that has no status yet. *)
Definition boot_verdict {codec : JsonCodec} {ext : Externals} (text : string)
  : string :=
  match json_loads text with
  | None => "FAILED"
  | Some wo_resp =>
      match response_failed wo_resp with
      | Ret true => "FAILED"
      | _ => "SUCCESS"
      end
  end.

(** An enclave whose execution raises. *)
Definition crashing_enclave : Externals := {|
  sgx_execute _ := Raise (ExternalError "enclave crashed");
  sdk_update_receipt := @sdk_update_receipt scenario_externals;
  strip_begin_end_public_key := @strip_begin_end_public_key scenario_externals;
  sha256_hexdigest := @sha256_hexdigest scenario_externals;
  WorkOrderStatus_FAILED := 1;
  WorkOrderStatus_PENDING_value := 5;
  ReceiptCreateStatus_FAILED_value := 3;
  ReceiptCreateStatus_PROCESSED_value := 2;
  ReceiptCreateStatus_COMPLETED_value := 1;
  WorkerType_TEE_SGX_value := 1;
  WorkerStatus_ACTIVE_value := 1
|}.

(** [wo1] is scheduled without a request; an old marker is still there. *)
Definition scenario_no_request : gmap (string * string) string :=
  {[ ("wo-scheduled", "wo1") := "SCHEDULED";
     ("wo-processing", "wo1") := "PROCESSING" ]}.

(** The manager once the signup has gone through. *)
Definition signed_up (key signature measurement : string) : WpeManager :=
  {| _unique_verification_key := Some key;
     _unique_verification_key_signature := Some signature;
     mr_enclave := Some measurement |}.

(** ** Command-line options ([parse_command_line]) *)

(** What [argparse] hands back for [--logfile], [--loglevel] and
    [--lmdb_url]; an option that was not given is [None]. *)
Record Options := {
  logfile : option string;
  loglevel : option string;
  lmdb_url : option string
}.

(** [d.get(k)]: the value, or [None] when the key is missing. *)
Definition py_dict_get (d : json) (k : string) : result json :=
  match d with
  | JObj kvs => Ret (default JNull (assoc k kvs))
  | _ => Raise AttributeError
  end.

(** The text of an option that is given and not empty. *)
Definition option_text (o : option string) : string := default "" o.

Section CommandLine.
(** [str.upper]. *)
Variable str_upper : string -> string.

(** [parse_command_line], from the parsed options on; the value is the
    configuration after the assignments. *)
Definition parse_command_line (config : json) (options : Options)
  : result json :=
  logging <~ py_dict_get config "Logging" ;;
  config <~ match logging with
            | JNull =>
                py_setitem config "Logging"
                  (JObj [("LogFile", JStr "__screen__");
                         ("LogLevel", JStr "INFO")])
            | _ => Ret config
            end ;;
  config <~ (if truthy (logfile options)
             then py_setitem2 config "Logging" "LogFile"
                    (JStr (option_text (logfile options)))
             else Ret config) ;;
  config <~ (if truthy (loglevel options)
             then py_setitem2 config "Logging" "LogLevel"
                    (JStr (str_upper (option_text (loglevel options))))
             else Ret config) ;;
  if truthy (lmdb_url options)
  then py_setitem2 config "KvStorage" "remote_url"
         (JStr (option_text (lmdb_url options)))
  else Ret config.
End CommandLine.

(** The text [[{"updateType": 2}]]. *)
Definition open_updates_text : string :=
  String.append "[{" (String.append dq (String.append "updateType"
    (String.append dq ": 2}]"))).

(** The text [{"error": {"code": 2}}]. *)
Definition error_response_text : string :=
  String.append "{" (String.append dq (String.append "error"
    (String.append dq (String.append ": {" (String.append dq
      (String.append "code" (String.append dq ": 2}}"))))))).

(** The codec of the scenarios, with the two texts above. *)
Definition ledger_codec : JsonCodec := {|
  json_loads text :=
    if String.eqb text open_updates_text
      then Some (JArr [JObj [("updateType", JInt 2)]])
    else if String.eqb text error_response_text
      then Some (JObj [("error", JObj [("code", JInt 2)])])
    else @json_loads scenario_codec text;
  json_dumps := @json_dumps scenario_codec
|}.

(** [wo1] has a receipt whose update list is still open. *)
Definition scenario_open_receipt : gmap (string * string) string :=
  {[ ("wo-receipts", "wo1") := "receipt";
     ("wo-receipt-updates", "wo1") := open_updates_text ]}.

(** [wo1] has a receipt and no update yet. *)
Definition scenario_new_receipt : gmap (string * string) string :=
  {[ ("wo-receipts", "wo1") := "receipt" ]}.

(** [wo4] was interrupted after its response was stored; a status is
    already recorded for it. *)
Definition scenario_settled : gmap (string * string) string :=
  {[ ("wo-processing", "wo4") := "PROCESSING";
     ("wo-responses", "wo4") := ok_response_text;
     ("wo-processed", "wo4") := "FAILED" ]}.

(** [wo5] was interrupted after its response was stored. *)
Definition scenario_answered : gmap (string * string) string :=
  {[ ("wo-processing", "wo5") := "PROCESSING";
     ("wo-responses", "wo5") := ok_response_text ]}.

(** [wo6] was interrupted after an error response was stored; it has a
    receipt. *)
Definition scenario_error_answer : gmap (string * string) string :=
  {[ ("wo-processing", "wo6") := "PROCESSING";
     ("wo-responses", "wo6") := error_response_text;
     ("wo-receipts", "wo6") := "receipt" ]}.

(** Two scheduled work orders with well-formed requests. *)
Definition scenario_two_scheduled : gmap (string * string) string :=
  {[ ("wo-scheduled", "wo1") := "SCHEDULED"; ("wo-requests", "wo1") := "{}";
     ("wo-scheduled", "wo2") := "SCHEDULED"; ("wo-requests", "wo2") := "{}" ]}.

(** A malformed request scheduled before a well-formed one. *)
Definition scenario_bad_then_good : gmap (string * string) string :=
  {[ ("wo-scheduled", "wo2") := "SCHEDULED";
     ("wo-requests", "wo2") := "{not json";
     ("wo-scheduled", "wo7") := "SCHEDULED"; ("wo-requests", "wo7") := "{}" ]}.

(** A KME whose reply carries a key with the signature the enclave
    accepts. *)
Definition honest_kme : KmeExternals := {|
  _postmsg _ := Ret (JObj [("result", JObj [])]);
  verify_signature := @verify_signature scenario_kme;
  decrypted_response _ _ _ :=
    Ret (JArr [JObj [("data", JStr "ok unique-key kme-signature")]]);
  utf8_hex := @utf8_hex scenario_kme;
  work_order_params := @work_order_params scenario_kme;
  new_enclave_info := Ret tt;
  GenerateNonce := @GenerateNonce scenario_kme;
  VerifyUniqueIdSignature := @VerifyUniqueIdSignature scenario_kme;
  get_enclave_measurement := Ret "mr-enclave";
  create_enclave_signup_data := @create_enclave_signup_data scenario_kme
|}.

(** A requester whose reply has two fields only. *)
Definition short_reply (nonce : string) : M WpeManager kme_event json :=
  fun st => (Ret (JStr "ok unique-key"), st, []).

(** Upper case of the ASCII letters. *)
Fixpoint ascii_upper (text : string) : string :=
  match text with
  | EmptyString => EmptyString
  | String c rest =>
      let n := Ascii.nat_of_ascii c in
      String (if (Nat.leb 97 n && Nat.leb n 122)%bool
              then Ascii.ascii_of_nat (n - 32) else c)
             (ascii_upper rest)
  end.

(** A configuration with a store block and no logging block. *)
Definition scenario_config_file : json :=
  JObj [("KvStorage", JObj [("remote_url", JStr "http://localhost:9090")])].

(** The text [[{"updateType": 3}]]. *)
Definition failed_updates_text : string :=
  String.append "[{" (String.append dq (String.append "updateType"
    (String.append dq ": 3}]"))).

(** The codec of the ledger scenarios that also writes the error answer and
    a list holding one FAILED update as their texts. *)
Definition error_codec : JsonCodec := {|
  json_loads := @json_loads ledger_codec;
  json_dumps indent v :=
    match v with
    | JObj (("error", _) :: _) => error_response_text
    | JArr [JObj [_; ("updateType", JInt 3)]] => failed_updates_text
    | _ => @json_dumps scenario_codec indent v
    end
|}.

(** An enclave that answers every request with the error object
    [{"error": {"code": 2}}]. *)
Definition refusing_enclave : Externals := {|
  sgx_execute _ := Ret (JObj [("error", JObj [("code", JInt 2)])]);
  sdk_update_receipt := @sdk_update_receipt scenario_externals;
  strip_begin_end_public_key := @strip_begin_end_public_key scenario_externals;
  sha256_hexdigest := @sha256_hexdigest scenario_externals;
  WorkOrderStatus_FAILED := 1;
  WorkOrderStatus_PENDING_value := 5;
  ReceiptCreateStatus_FAILED_value := 3;
  ReceiptCreateStatus_PROCESSED_value := 2;
  ReceiptCreateStatus_COMPLETED_value := 1;
  WorkerType_TEE_SGX_value := 1;
  WorkerStatus_ACTIVE_value := 1
|}.

(** [wo1] is scheduled with a well-formed request and has a receipt. *)
Definition scenario_A_receipt : gmap (string * string) string :=
  {[ ("wo-scheduled", "wo1") := "SCHEDULED";
     ("wo-requests", "wo1") := "{}";
     ("wo-receipts", "wo1") := "receipt" ]}.

(** [wo1] has a receipt whose stored update list is empty. *)
Definition scenario_empty_updates : gmap (string * string) string :=
  {[ ("wo-receipts", "wo1") := "receipt";
     ("wo-receipt-updates", "wo1") := "[]" ]}.

(** Whether [--logfile] and [--loglevel] can be stored: the [Logging] block
    is missing or [None] (it is then installed), or it is a table. *)
Definition logging_is_table (kvs : list (string * json)) : bool :=
  match assoc "Logging" kvs with
  | None | Some JNull | Some (JObj _) => true
  | Some _ => false
  end.

(** A configuration with a logging block and no store block. *)
Definition scenario_config_no_store : json :=
  JObj [("Logging", JObj [("LogLevel", JStr "INFO")])].

(** Membership in a table list written out. *)
Ltac in_tables :=
  unfold by_id_written, boot_written; rewrite !elem_of_cons; auto 10.

(** Unfolds the monad and the store calls. *)
Ltac run_monad :=
  unfold bind, ret, lift, raise, try_except, kv_get, kv_set, kv_remove,
    kv_lookup, outcome, final, trace in *;
  simpl in *.

(** ** Facts about the store model *)

Lemma elem_of_kv_sorted_keys (t : string) (s : gmap (string * string) string)
    (k : string) :
  k ∈ kv_sorted_keys t s ↔ is_Some (s !! (t, k)).
Proof.
  unfold kv_sorted_keys. rewrite merge_sort_Permutation, list_elem_of_omap.
  split.
  - intros [[t' k'] [Hin Hf]]. simpl in Hf. case_decide; simplify_eq/=.
    apply list_elem_of_fmap in Hin as [[[t0 k0] v] [? Hin]]; simplify_eq/=.
    apply elem_of_map_to_list in Hin. eauto.
  - intros [v Hv]. exists (t, k). split.
    + apply list_elem_of_fmap. exists ((t, k), v). split; [done|].
      by apply elem_of_map_to_list.
    + simpl. by rewrite decide_True.
Qed.

Lemma NoDup_kv_sorted_keys (t : string) (s : gmap (string * string) string) :
  NoDup (kv_sorted_keys t s).
Proof.
  unfold kv_sorted_keys. rewrite merge_sort_Permutation.
  pose proof (NoDup_fst_map_to_list s) as Hnd.
  induction Hnd as [|[t' k'] l Hnotin Hnd IH]; simpl; [constructor|].
  case_decide; simplify_eq/=; [|done].
  constructor; [|done].
  rewrite list_elem_of_omap. intros [[t0 k0] [Hin Hf]]. simpl in Hf.
  case_decide; simplify_eq/=. done.
Qed.

Lemma Sorted_kv_sorted_keys (t : string) (s : gmap (string * string) string) :
  Sorted String.le (kv_sorted_keys t s).
Proof. apply (Sorted_merge_sort String.le). Qed.

(** A sorted duplicate-free list of exactly the keys of a table is what
    [lookup] answers. *)
Lemma kv_sorted_keys_unique (t : string) (s : gmap (string * string) string)
    (l : list string) :
  Sorted String.le l → NoDup l →
  (∀ k, k ∈ l ↔ is_Some (s !! (t, k))) →
  kv_sorted_keys t s = l.
Proof.
  intros Hs Hnd Hel. apply (Sorted_unique String.le).
  - apply Sorted_kv_sorted_keys.
  - done.
  - apply NoDup_Permutation; [apply NoDup_kv_sorted_keys|done|].
    intros k. by rewrite elem_of_kv_sorted_keys, Hel.
Qed.

Lemma kv_sorted_keys_nil (t : string) (s : gmap (string * string) string) :
  (∀ k, s !! (t, k) = None) → kv_sorted_keys t s = [].
Proof.
  intros Hnone. apply kv_sorted_keys_unique; [constructor|constructor|].
  intros k. rewrite Hnone. split; [by intros ?%elem_of_nil|by intros [??]].
Qed.

Lemma Sorted_le_app_r (l1 l2 : list string) :
  Sorted String.le (l1 ++ l2) → Sorted String.le l2.
Proof.
  intros Hs. apply StronglySorted_Sorted.
  apply (StronglySorted_app_1_r String.le l1).
  by apply (Sorted_StronglySorted String.le).
Qed.


(** ** The receipt ledger *)

Section SingletonFacts.
Context {codec : JsonCodec} {ext : Externals}.

(** A receipt update either leaves the store as it was or rewrites the one
    entry [wo-receipt-updates[wo_id]]; when it raises nothing was written. *)
Lemma update_receipt_effect (wo_id : string) (resp : json)
    (s : gmap (string * string) string) :
  match __update_receipt wo_id resp s with
  | (Ret _, s', _) =>
      s' = s ∨ ∃ v, s' = <[("wo-receipt-updates", wo_id) := v]> s
  | (Raise _, s', _) => s' = s
  end.
Proof.
  unfold __update_receipt. run_monad.
  repeat (case_match; simplify_eq/=); eauto.
Qed.

Lemma py_getitem_int_last (arr : list json) (u : json) :
  last arr = Some u →
  py_getitem_int (JArr arr) (Z.of_nat (length arr) - 1) = Ret u.
Proof.
  intros Hlast. rewrite last_lookup in Hlast.
  assert (length arr ≠ 0%nat) by (destruct arr; simpl in *; done).
  unfold py_getitem_int, py_index.
  replace (Z.of_nat (length arr) - 1 <? 0) with false by lia.
  replace (0 <=? Z.of_nat (length arr) - 1) with true by lia.
  replace (Z.of_nat (length arr) - 1 <? Z.of_nat (length arr)) with true by lia.
  simpl. replace (Z.to_nat (Z.of_nat (length arr) - 1)) with (pred (length arr)) by lia.
  by rewrite Hlast.
Qed.

Lemma responses_not_written : "wo-responses" ∉ boot_written.
Proof.
  unfold boot_written. rewrite !elem_of_cons, elem_of_nil.
  by intros [?|[?|[?|[?|?]]]].
Qed.

Lemma workers_not_written : "workers" ∉ boot_written.
Proof.
  unfold boot_written. rewrite !elem_of_cons, elem_of_nil.
  by intros [?|[?|[?|[?|?]]]].
Qed.

(** One iteration of the boot loop: when it completes, the processing
    marker of [wo] is gone and only entries of [wo] in the four written
    tables may differ; when it raises, nothing was written. *)
Lemma boot_step_effect (wo : string) (s : gmap (string * string) string) :
  match boot_step wo s with
  | (Ret _, s', _) =>
      s' !! ("wo-processing", wo) = None ∧
      ∀ t k, k ≠ wo ∨ t ∉ boot_written → s' !! (t, k) = s !! (t, k)
  | (Raise _, s', _) => s' = s
  end.
Proof.
  unfold boot_step. run_monad.
  repeat (case_match; simplify_eq/=);
    repeat match goal with
    | Hu : __update_receipt ?w ?r ?s0 = _ |- _ =>
        let Hx := fresh in
        pose proof (update_receipt_effect w r s0) as Hx;
        rewrite Hu in Hx; clear Hu; simpl in Hx;
        first [ destruct Hx as [->|[? ->]] | subst ]
    end; simplify_eq/=; try done.
  all: split; [by rewrite lookup_delete_eq|].
  all: intros t k Hk; unfold boot_written in Hk;
    rewrite ?lookup_delete_ne, ?lookup_insert_ne; try done.
  all: intros ?; simplify_eq; destruct Hk as [Hk|Hk]; [done|];
    apply Hk; set_solver.
Qed.

(** An entry without a response is put back into [wo-scheduled] and its
    processing marker is removed. *)
Lemma boot_step_no_response (wo : string)
    (s : gmap (string * string) string) :
  s !! ("wo-responses", wo) = None →
  boot_step wo s =
    (Ret tt,
     delete ("wo-processing", wo) (<[("wo-scheduled", wo) := "SCHEDULED"]> s),
     [KvGet "wo-responses" wo; KvGet "wo-processed" wo;
      KvSet "wo-scheduled" wo "SCHEDULED"; KvRemove "wo-processing" wo]).
Proof. intros Hnone. unfold boot_step. run_monad. by rewrite Hnone. Qed.

(** The loop over the processing list. *)
Lemma boot_loop_effect (l : list string) :
  ∀ s : gmap (string * string) string, NoDup l →
  match for_each l boot_step s with
  | (Ret _, s', _) =>
      (∀ k, k ∈ l → s' !! ("wo-processing", k) = None) ∧
      (∀ k, k ∈ l → s !! ("wo-responses", k) = None →
            s' !! ("wo-scheduled", k) = Some "SCHEDULED") ∧
      (∀ t k, k ∉ l ∨ t ∉ boot_written → s' !! (t, k) = s !! (t, k))
  | (Raise e, s', _) =>
      ∃ pre k post tr,
        l = pre ++ k :: post ∧
        (∀ j, j ∈ pre → s' !! ("wo-processing", j) = None) ∧
        (∀ t j, j ∉ pre ∨ t ∉ boot_written → s' !! (t, j) = s !! (t, j)) ∧
        boot_step k s' = (Raise e, s', tr)
  end.
Proof.
  induction l as [|x rest IH]; intros s Hnd.
  { simpl. unfold ret. split_and!; [by intros ? ?%elem_of_nil..|done]. }
  apply NoDup_cons in Hnd as [Hx Hrest].
  simpl. unfold bind.
  pose proof (boot_step_effect x s) as Hstep.
  pose proof (boot_step_no_response x s) as Hresched.
  destruct (boot_step x s) as [[[[]|e] s1] tr1] eqn:Hrun.
  - destruct Hstep as [Hgone Hframe].
    specialize (IH s1 Hrest).
    destruct (for_each rest boot_step s1) as [[[[]|e] s2] tr2].
    + destruct IH as (Hproc & Hsched & Hfr). split_and!.
      * intros k [->|Hk]%elem_of_cons; [|by apply Hproc].
        rewrite Hfr by (by left). done.
      * intros k [->|Hk]%elem_of_cons Hnone.
        -- rewrite Hfr by (by left).
           specialize (Hresched Hnone). simplify_eq.
           rewrite lookup_delete_ne by done. by rewrite lookup_insert_eq.
        -- apply Hsched; [done|]. rewrite Hframe; [done|].
           right. apply responses_not_written.
      * intros t k Hk. rewrite Hfr, Hframe; [done|..].
        -- destruct Hk as [Hk|Hk]; [left|by right].
           intros ->. apply Hk. by left.
        -- destruct Hk as [Hk|Hk]; [left|by right].
           intros Hin. apply Hk. by right.
    + destruct IH as (pre & k & post & tr & -> & Hproc & Hfr & Hk).
      exists (x :: pre), k, post, tr. split_and!; [done| | |done].
      * intros j [->|Hj]%elem_of_cons; [|by apply Hproc].
        destruct (decide (x ∈ pre)) as [Hin|Hnin]; [by apply Hproc|].
        rewrite Hfr by (by left). done.
      * intros t j Hj. rewrite Hfr, Hframe; [done|..].
        -- destruct Hj as [Hj|Hj]; [left|by right].
           intros ->. apply Hj. by left.
        -- destruct Hj as [Hj|Hj]; [left|by right].
           intros Hin. apply Hj. by right.
  - subst s1. exists [], x, rest, tr1. split_and!; [done| |done|done].
    by intros ? ?%elem_of_nil.
Qed.

Lemma remove_all_lookup (t : string) (l : list string) :
  ∀ (s : gmap (string * string) string) t' k',
    remove_all t l s !! (t', k') =
      if bool_decide (t' = t ∧ k' ∈ l) then None else s !! (t', k').
Proof.
  unfold remove_all.
  induction l as [|w l IH]; intros s t' k'; simpl.
  { rewrite bool_decide_eq_false_2; [done|]. by intros [_ ?%elem_of_nil]. }
  rewrite IH.
  destruct (decide (t' = t ∧ k' ∈ l)) as [[-> Hin]|Hn].
  { rewrite !bool_decide_eq_true_2; [done|split; [done|by right]|done]. }
  rewrite (bool_decide_eq_false_2 _ Hn).
  destruct (decide ((t, w) = (t', k'))) as [Heq|Hne].
  - simplify_eq. rewrite lookup_delete_eq.
    rewrite bool_decide_eq_true_2; [done|]. split; [done|by left].
  - rewrite lookup_delete_ne by done.
    case_bool_decide as Hb; [|done].
    destruct Hb as [-> [->|Hin]%elem_of_cons]; [done|].
    exfalso. by apply Hn.
Qed.

Lemma for_each_remove (t : string) (l : list string) :
  ∀ s : gmap (string * string) string,
    for_each l (fun w => kv_remove t w) s =
      (Ret tt, remove_all t l s, KvRemove t <$> l).
Proof.
  unfold remove_all.
  induction l as [|w l IH]; intros s; simpl; [done|].
  unfold bind, kv_remove at 1. by rewrite IH.
Qed.

Lemma workers_refreshed_lookup (self : EnclaveManager)
    (s : gmap (string * string) string) (t k : string) :
  workers_refreshed self s !! (t, k) =
    if decide (t = "workers") then
      if decide (k = worker_id_of self)
      then Some (_create_json_worker self (config self)) else None
    else s !! (t, k).
Proof.
  unfold workers_refreshed. rewrite lookup_insert.
  case_decide as Heq; simplify_eq.
  { rewrite decide_True by done. by rewrite decide_True. }
  rewrite remove_all_lookup.
  destruct (decide (t = "workers")) as [->|Hne].
  - rewrite decide_False by congruence.
    case_bool_decide as Hin; [done|].
    destruct (s !! ("workers", k)) eqn:Hl; [|done].
    exfalso. apply Hin. split; [done|].
    apply elem_of_kv_sorted_keys. eauto.
  - rewrite bool_decide_eq_false_2; [done|]. by intros [? _].
Qed.

(** [manager_on_boot] is the workers refresh followed by the loop over the
    processing list read after the refresh. *)
Lemma manager_on_boot_run (self : EnclaveManager)
    (s : gmap (string * string) string) :
  let s1 := workers_refreshed self s in
  let run := for_each (kv_sorted_keys "wo-processing" s1) boot_step s1 in
  ∃ tr0, manager_on_boot self s = (outcome run, final run, tr0 ++ trace run).
Proof.
  unfold manager_on_boot, workers_refreshed, worker_id_of.
  set (ws := kv_sorted_keys "workers" s).
  unfold bind at 1. unfold kv_lookup at 1. fold ws.
  unfold bind at 1.
  assert ((if bool_decide (length ws = 0%nat) then ret tt
           else for_each ws (fun worker => kv_remove "workers" worker)) s
          = (Ret tt, remove_all "workers" ws s,
             if bool_decide (length ws = 0%nat) then [] else KvRemove "workers" <$> ws))
    as ->.
  { case_bool_decide as Hlen; [|apply for_each_remove].
    apply nil_length_inv in Hlen. by rewrite Hlen. }
  unfold bind at 1. unfold kv_set at 1.
  set (s1 := <[_ := _]> _).
  unfold bind at 1. unfold kv_lookup at 1.
  set (ps := kv_sorted_keys "wo-processing" s1).
  assert ((if bool_decide (length ps = 0%nat) then ret tt
           else for_each ps boot_step) s1 = for_each ps boot_step s1) as ->.
  { case_bool_decide as Hlen; [|done].
    apply nil_length_inv in Hlen. by rewrite Hlen. }
  destruct (for_each ps boot_step s1) as [[r s2] tr].
  exists (KvLookup "workers" ::
          (if bool_decide (length ws = 0%nat) then []
           else KvRemove "workers" <$> ws) ++
          [KvSet "workers"
             (sha256_hexdigest (strip_begin_end_public_key (enclave_id self)))
             (_create_json_worker self (config self));
           KvLookup "wo-processing"]).
  unfold outcome, final, trace. simpl. by rewrite <- app_assoc.
Qed.

(** After the loop has run on the refreshed store, refreshing the workers
    table again changes nothing. *)
Lemma workers_refreshed_stable (self : EnclaveManager)
    (s s2 : gmap (string * string) string) :
  (∀ k, s2 !! ("workers", k) = workers_refreshed self s !! ("workers", k)) →
  workers_refreshed self s2 = s2.
Proof.
  intros Hw. apply map_eq. intros [t k].
  rewrite workers_refreshed_lookup. case_decide as Ht; [|done].
  subst t. rewrite Hw, workers_refreshed_lookup.
  by destruct (decide ("workers" = "workers")).
Qed.

(** C3: boot recovery is idempotent.  For every store, the store left by
    running [manager_on_boot] twice in a row is the store left by running it
    once; this covers a sweep that stops on an exception, which stops
    again at the same entry without writing. *)
Theorem C3_boot_recovery_idempotent (self : EnclaveManager)
    (s : gmap (string * string) string) :
  final (manager_on_boot self (final (manager_on_boot self s))) =
  final (manager_on_boot self s).
Proof.
  destruct (manager_on_boot_run self s) as [tr0 ->].
  set (s1 := workers_refreshed self s).
  set (l := kv_sorted_keys "wo-processing" s1).
  pose proof (boot_loop_effect l s1 (NoDup_kv_sorted_keys _ _)) as Hloop.
  pose proof (Sorted_kv_sorted_keys "wo-processing" s1) as Hsorted.
  pose proof (NoDup_kv_sorted_keys "wo-processing" s1) as Hnd.
  pose proof (elem_of_kv_sorted_keys "wo-processing" s1) as Hel.
  fold l in Hsorted, Hnd, Hel.
  destruct (for_each l boot_step s1) as [[r s2] tr].
  unfold final at 2 3. simpl.
  destruct (manager_on_boot_run self s2) as [tr1 ->].
  unfold final at 1. simpl.
  destruct r as [[]|e].
  - destruct Hloop as (Hproc & _ & Hframe).
    rewrite (workers_refreshed_stable self s s2)
      by (intros k; apply Hframe; right; apply workers_not_written).
    rewrite kv_sorted_keys_nil; [done|].
    intros k. destruct (decide (k ∈ l)) as [Hin|Hnin]; [by apply Hproc|].
    rewrite Hframe by (by left).
    destruct (s1 !! ("wo-processing", k)) eqn:Hk; [|done].
    exfalso. apply Hnin, Hel. eauto.
  - destruct Hloop as (pre & k & post & trk & Hl & Hproc & Hframe & Hk).
    rewrite (workers_refreshed_stable self s s2)
      by (intros j; apply Hframe; right; apply workers_not_written).
    rewrite (kv_sorted_keys_unique "wo-processing" s2 (k :: post)).
    + simpl. unfold bind. by rewrite Hk.
    + rewrite Hl in Hsorted. by apply Sorted_le_app_r in Hsorted.
    + rewrite Hl in Hnd. by apply NoDup_app in Hnd as (_ & _ & ?).
    + intros j. rewrite Hl in Hnd, Hel.
      apply NoDup_app in Hnd as (_ & Hdisj & _).
      split.
      * intros Hj. rewrite Hframe by (left; intros ?; by eapply Hdisj).
        apply Hel. apply elem_of_app. by right.
      * intros Hsome.
        destruct (decide (j ∈ pre)) as [Hin|Hnin].
        { rewrite Hproc in Hsome by done. by destruct Hsome. }
        rewrite Hframe in Hsome by (by left).
        apply Hel in Hsome. apply elem_of_app in Hsome as [?|?]; done.
Qed.


(** C6 (amended): for an id in [wo-processing] with no [wo-responses]
    entry, the sweep's own iteration writes [wo-scheduled[id]] and then
    removes [wo-processing[id]]; it never raises and touches nothing
    else. *)
Theorem C6_boot_step_removes_processing_marker (wo : string)
    (s : gmap (string * string) string) :
  s !! ("wo-responses", wo) = None →
  outcome (boot_step wo s) = Ret tt ∧
  final (boot_step wo s) !! ("wo-scheduled", wo) = Some "SCHEDULED" ∧
  final (boot_step wo s) !! ("wo-processing", wo) = None ∧
  (∀ t k, (t, k) ≠ ("wo-scheduled", wo) → (t, k) ≠ ("wo-processing", wo) →
          final (boot_step wo s) !! (t, k) = s !! (t, k)) ∧
  trace (boot_step wo s) =
    [KvGet "wo-responses" wo; KvGet "wo-processed" wo;
     KvSet "wo-scheduled" wo "SCHEDULED"; KvRemove "wo-processing" wo].
Proof.
  intros Hnone. rewrite (boot_step_no_response wo s Hnone).
  unfold outcome, final, trace. simpl. split_and!; try done.
  - rewrite lookup_delete_ne by done. by rewrite lookup_insert_eq.
  - by rewrite lookup_delete_eq.
  - intros t k Hs Hp.
    rewrite lookup_delete_ne by done. by rewrite lookup_insert_ne.
Qed.

(** C2: once the stored update sequence of an id ends with a COMPLETED
    update, [__update_receipt] with any response leaves the store, and so
    the stored sequence, unchanged. *)
Theorem C2_completed_receipt_is_frozen (wo_id : string) (resp : json)
    (s : gmap (string * string) string) :
  receipt_frozen s wo_id = true →
  final (__update_receipt wo_id resp s) = s ∧
  final (__update_receipt wo_id resp s) !! ("wo-receipt-updates", wo_id) =
    s !! ("wo-receipt-updates", wo_id).
Proof.
  intros Hfrozen.
  assert (final (__update_receipt wo_id resp s) = s) as Hsame;
    [|by rewrite Hsame].
  unfold receipt_frozen in Hfrozen.
  destruct (s !! ("wo-receipt-updates", wo_id)) as [text|] eqn:Htext; [|done].
  destruct (json_loads text) as [[| | | | |arr|]|] eqn:Hparse; try done.
  destruct (last arr) as [u|] eqn:Hlast; [|done].
  destruct (py_getitem u "updateType") as [update|] eqn:Hupd; [|done].
  unfold __update_receipt. run_monad.
  destruct (truthy (s !! ("wo-receipts", wo_id))); [|done].
  destruct (response_is_error resp) as [is_error|]; [|done]. simpl.
  destruct (sdk_update_receipt _ _ _) as [wo_receipt|]; [|done]. simpl.
  rewrite Htext. unfold loads. rewrite Hparse. simpl.
  pose proof (py_getitem_int_last arr u Hlast) as Hget.
  unfold py_getitem_int in Hget. rewrite Hget.
  rewrite Hupd. by rewrite Hfrozen.
Qed.

(** C1 on the code: an error answer of the enclave is recorded as SUCCESS.
    When the answer to a well-formed request has no [Response] entry and
    carries an error whose code is not PENDING, [process_work_order_by_id]
    returns it, stores it in [wo-responses] and sets [wo-processed[id]] to
    SUCCESS, while the receipt update made in the same call, the first of
    the id, is built with the update type FAILED. *)
Theorem C1_error_answer_recorded_as_success (wo_id req text : string)
    (wo_resp wo_receipt : json) (s : gmap (string * string) string) :
  s !! ("wo-requests", wo_id) = Some req →
  validate_request req = true →
  _execute_work_order req = Ret text →
  json_loads text = Some wo_resp →
  py_contains "Response" wo_resp = Ret false →
  response_is_error wo_resp = Ret true →
  truthy (s !! ("wo-receipts", wo_id)) = true →
  s !! ("wo-receipt-updates", wo_id) = None →
  sdk_update_receipt wo_id ReceiptCreateStatus_FAILED_value wo_resp
    = Ret wo_receipt →
  let run := process_work_order_by_id wo_id s in
  outcome run = Ret (Some wo_resp) ∧
  final run !! ("wo-processing", wo_id) = None ∧
  final run !! ("wo-processed", wo_id) = Some "SUCCESS" ∧
  final run !! ("wo-responses", wo_id) = Some text ∧
  final run !! ("wo-receipt-updates", wo_id)
    = Some (json_dumps None (JArr [wo_receipt])).
Proof.
  intros Hreq Hvalid Hexec Hparse Hnoresp Herr Hreceipt Hnone Hsdk run.
  subst run.
  assert (response_failed wo_resp = Ret false) as Hfailed.
  { unfold response_failed. by rewrite Hnoresp. }
  set (s0 := delete ("wo-scheduled", wo_id)
               (<[("wo-processing", wo_id) := "PROCESSING"]> s)).
  assert (__update_receipt wo_id wo_resp s0 =
            (Ret tt,
             <[("wo-receipt-updates", wo_id) :=
                 json_dumps None (JArr [wo_receipt])]> s0,
             [KvGet "wo-receipts" wo_id; KvGet "wo-receipt-updates" wo_id;
              KvSet "wo-receipt-updates" wo_id
                (json_dumps None (JArr [wo_receipt]))])) as Hupd.
  { assert (s0 !! ("wo-receipts", wo_id) = s !! ("wo-receipts", wo_id))
      as Hr0.
    { unfold s0. rewrite lookup_delete_ne by done.
      by rewrite lookup_insert_ne. }
    assert (s0 !! ("wo-receipt-updates", wo_id) = None) as Hu0.
    { unfold s0. rewrite lookup_delete_ne by done.
      by rewrite lookup_insert_ne. }
    unfold __update_receipt. run_monad.
    rewrite Hr0, Hreceipt, Herr. simpl. rewrite Hsdk. simpl.
    by rewrite Hu0. }
  unfold process_work_order_by_id. run_monad.
  rewrite lookup_insert_ne by done. rewrite Hreq. simpl.
  rewrite Hvalid. simpl. rewrite Hexec. simpl.
  unfold loads. rewrite Hparse. simpl.
  rewrite insert_insert_eq. fold s0. rewrite Hupd. simpl.
  rewrite Hfailed. simpl.
  split_and!; [done|..].
  - by rewrite lookup_delete_eq.
  - rewrite lookup_delete_ne by done. rewrite lookup_insert_ne by done.
    by rewrite lookup_insert_eq.
  - rewrite lookup_delete_ne by done. by rewrite lookup_insert_eq.
  - rewrite lookup_delete_ne by done. rewrite !lookup_insert_ne by done.
    by rewrite lookup_insert_eq.
Qed.

(** C4 on the code: for a request that does not parse, the lookup of the
    undefined name [wo_response] raises before anything is recorded, so the
    id stays marked in [wo-processing] and neither [wo-processed] nor
    [wo-responses] is written. *)
Theorem C4_malformed_request_raises (wo_id req : string)
    (s : gmap (string * string) string) :
  s !! ("wo-requests", wo_id) = Some req →
  json_loads req = None →
  outcome (process_work_order_by_id wo_id s) = Raise NameError ∧
  final (process_work_order_by_id wo_id s) !! ("wo-processing", wo_id)
    = Some "PROCESSING" ∧
  final (process_work_order_by_id wo_id s) !! ("wo-processed", wo_id)
    = s !! ("wo-processed", wo_id) ∧
  final (process_work_order_by_id wo_id s) !! ("wo-responses", wo_id)
    = s !! ("wo-responses", wo_id).
Proof.
  intros Hreq Hbad.
  unfold process_work_order_by_id, validate_request. run_monad.
  rewrite lookup_insert_ne by done. rewrite Hreq. simpl.
  rewrite Hbad. simpl.
  rewrite !lookup_delete_ne by done.
  rewrite !lookup_insert_eq. rewrite !lookup_insert_ne by done. done.
Qed.

Lemma update_receipt_trace (wo_id : string) (resp : json)
    (s : gmap (string * string) string) :
  Forall (fun o => is_remove o = false) (trace (__update_receipt wo_id resp s)).
Proof.
  unfold __update_receipt. run_monad.
  repeat (case_match; simplify_eq/=); repeat constructor.
Qed.

(** The calls [process_work_order_by_id] makes on the store: either the
    request is missing and the marker is withdrawn at once, or the marker
    is written (twice) before the single removal from [wo-scheduled]. *)
Lemma process_work_order_by_id_trace (wo_id : string)
    (s : gmap (string * string) string) :
  trace (process_work_order_by_id wo_id s) =
    [KvSet "wo-processing" wo_id "PROCESSING"; KvGet "wo-requests" wo_id;
     KvRemove "wo-processing" wo_id] ∨
  ∃ rest,
    trace (process_work_order_by_id wo_id s) =
      [KvSet "wo-processing" wo_id "PROCESSING"; KvGet "wo-requests" wo_id;
       KvSet "wo-processing" wo_id "PROCESSING";
       KvRemove "wo-scheduled" wo_id] ++ rest ∧
    KvRemove "wo-scheduled" wo_id ∉ rest.
Proof.
  unfold process_work_order_by_id, validate_request. run_monad.
  rewrite lookup_insert_ne by done.
  destruct (s !! ("wo-requests", wo_id)) as [req|]; simpl; [|by left].
  right.
  destruct (json_loads req) as [parsed|]; simpl;
    [|eexists; split; [done|by intros ?%elem_of_nil]].
  destruct (_execute_work_order req) as [wo_json_resp|]; simpl;
    [|eexists; split; [done|by intros ?%elem_of_nil]].
  unfold loads.
  destruct (json_loads wo_json_resp) as [wo_resp|]; simpl;
    [|eexists; split; [done|by intros ?%elem_of_nil]].
  match goal with |- context [__update_receipt ?w ?r ?s0] =>
    pose proof (update_receipt_trace w r s0) as Htr;
    destruct (__update_receipt w r s0) as [[[[]|e] s2] tr]
  end; unfold trace in Htr; simpl in Htr; simpl.
  - destruct (response_failed wo_resp) as [[|]|]; simpl.
    all: eexists; split; [done|].
    all: rewrite ?elem_of_app, ?elem_of_cons, elem_of_nil.
    all: intros Hin; destruct_or?; simplify_eq; try done.
    all: rewrite Forall_forall in Htr.
    all: match goal with Hx : _ ∈ _ |- _ => apply Htr in Hx; done end.
  - eexists; split; [done|].
    rewrite Forall_forall in Htr. intros Hin. by apply Htr in Hin.
Qed.

(** C7: in every run of [process_work_order_by_id], the removal of
    [wo-scheduled[id]] comes after the write of [wo-processing[id]]: the
    calls before the removal start with that write and leave the marker in
    the store; and for an id that was scheduled, no prefix of the calls
    leaves it in neither table unless the marker has been written. *)
Theorem C7_processing_marker_precedes_scheduled_removal (wo_id : string)
    (s : gmap (string * string) string) :
  (∀ pre post,
      trace (process_work_order_by_id wo_id s) =
        pre ++ KvRemove "wo-scheduled" wo_id :: post →
      (∃ pre', pre = KvSet "wo-processing" wo_id "PROCESSING" :: pre') ∧
      apply_ops s pre !! ("wo-processing", wo_id) = Some "PROCESSING") ∧
  (∀ p q,
      trace (process_work_order_by_id wo_id s) = p ++ q →
      is_Some (s !! ("wo-scheduled", wo_id)) →
      apply_ops s p !! ("wo-scheduled", wo_id) = None →
      apply_ops s p !! ("wo-processing", wo_id) = None →
      KvSet "wo-processing" wo_id "PROCESSING" ∈ p).
Proof.
  pose proof (process_work_order_by_id_trace wo_id s) as Hshape.
  split.
  - intros pre post Htr.
    destruct Hshape as [Hshort|(rest & Hlong & Hnot)].
    + rewrite Hshort in Htr.
      destruct pre as [|? [|? [|? [|? ?]]]]; simplify_eq/=.
    + rewrite Hlong in Htr.
      destruct pre as [|? [|? [|? [|? pre']]]]; simplify_eq/=.
      * split; [by eexists|].
        unfold apply_ops. simpl. by rewrite lookup_insert_eq.
      * exfalso. apply Hnot. apply elem_of_app. right. by left.
  - intros p q Htr Hsched Hs Hp.
    destruct p as [|o p'].
    { unfold apply_ops in Hs. simpl in Hs. rewrite Hs in Hsched.
      by destruct Hsched. }
    destruct Hshape as [Hshort|(rest & Hlong & _)].
    + rewrite Hshort in Htr. simplify_eq/=. by left.
    + rewrite Hlong in Htr. simplify_eq/=. by left.
Qed.

(** The recorded calls account for the store: replaying them on the
    initial store gives the final one. *)
Lemma update_receipt_replay (wo_id : string) (resp : json)
    (s : gmap (string * string) string) :
  final (__update_receipt wo_id resp s) =
    apply_ops s (trace (__update_receipt wo_id resp s)).
Proof.
  unfold __update_receipt, apply_ops. run_monad.
  repeat (case_match; simplify_eq/=); done.
Qed.

Lemma process_work_order_by_id_replay (wo_id : string)
    (s : gmap (string * string) string) :
  final (process_work_order_by_id wo_id s) =
    apply_ops s (trace (process_work_order_by_id wo_id s)).
Proof.
  unfold process_work_order_by_id, validate_request, apply_ops. run_monad.
  rewrite lookup_insert_ne by done.
  destruct (s !! ("wo-requests", wo_id)) as [req|]; simpl; [|done].
  destruct (json_loads req) as [parsed|]; simpl; [|done].
  destruct (_execute_work_order req) as [wo_json_resp|]; simpl; [|done].
  unfold loads.
  destruct (json_loads wo_json_resp) as [wo_resp|]; simpl; [|done].
  match goal with |- context [__update_receipt ?w ?r ?s0] =>
    pose proof (update_receipt_replay w r s0) as Hrep;
    destruct (__update_receipt w r s0) as [[[[]|e] s2] tr]
  end; unfold final, trace, apply_ops in Hrep; simpl in Hrep; simpl;
    [|done].
  destruct (response_failed wo_resp) as [[|]|]; simpl;
    rewrite ?foldl_app; simpl; by rewrite <- Hrep.
Qed.
End SingletonFacts.

(** ** The KME handshake: facts *)

Section KmeFacts.
Context {codec : JsonCodec} {kme : KmeExternals}.

(** The first step up to the response of the transport. *)
Lemma get_unique_verification_key_posts {St : Type} (rnd : Entropy)
    (nonce encryption_key verifying_key : string) (st : St) (wo_req : json) :
  _construct_wo_req rnd (nonce_in_data nonce) "kme-uid" encryption_key
    (session_key rnd) (session_iv rnd) = Ret wo_req →
  let request :=
    rpc_request rnd "GetUniqueVerificationKey"
      (JObj [("wo_request", wo_req)]) in
  get_unique_verification_key rnd nonce encryption_key verifying_key st =
    match _postmsg (json_dumps None request) with
    | Raise e => (Raise e, st, [Posted request])
    | Ret response =>
        match py_contains "result" response with
        | Raise e => (Raise e, st, [Posted request])
        | Ret false => (Ret JNull, st, [Posted request])
        | Ret true =>
            match py_getitem response "result" with
            | Raise e => (Raise e, st, [Posted request])
            | Ret wo_res =>
                match verify_signature wo_res verifying_key with
                | Raise e => (Raise e, st, [Posted request])
                | Ret (NOT_PASSED _) => (Ret JNull, st, [Posted request])
                | Ret PASSED =>
                    (dec <~ decrypted_response wo_res (session_key rnd)
                              (session_iv rnd) ;;
                     first <~ py_getitem_int dec 0 ;;
                     py_getitem first "data",
                     st, [Posted request])
                end
            end
        end
    end.
Proof.
  intros Hreq request. subst request.
  unfold get_unique_verification_key, nonce_in_data, rpc_request in *.
  unfold bind, lift, ret, _post_and_get_result, _verify_res_signature.
  rewrite Hreq. simpl.
  destruct (_postmsg _) as [response|]; [|done].
  destruct (py_contains "result" response) as [[|]|]; [|done|done].
  destruct (py_getitem response "result") as [wo_res|]; [|done].
  destruct (verify_signature wo_res verifying_key) as [[|member]|];
    simpl; [|done|done].
  destruct (decrypted_response wo_res _ _) as [dec|]; simpl; [|done].
  destruct (py_getitem_int dec 0) as [first|]; simpl; [|done].
  by destruct (py_getitem first "data").
Qed.

(** The second step up to the response of the transport. *)
Lemma register_wo_processor_posts {St : Type} (rnd : Entropy)
    (attestation_report : json) (encryption_key verifying_key : string)
    (st : St) (wo_req : json) :
  _construct_wo_req rnd (report_in_data attestation_report) "kme-reg"
    encryption_key (session_key rnd) (session_iv rnd) = Ret wo_req →
  let request :=
    rpc_request rnd "RegisterWorkOrderProcessor"
      (JObj [("wo_request", wo_req)]) in
  register_wo_processor rnd attestation_report encryption_key verifying_key st =
    match _postmsg (json_dumps None request) with
    | Raise e => (Raise e, st, [Posted request])
    | Ret response =>
        match py_contains "result" response with
        | Raise e => (Raise e, st, [Posted request])
        | Ret false => (Ret JNull, st, [Posted request])
        | Ret true =>
            match py_getitem response "result" with
            | Raise e => (Raise e, st, [Posted request])
            | Ret wo_res =>
                match verify_signature wo_res verifying_key with
                | Raise e => (Raise e, st, [Posted request])
                | Ret (NOT_PASSED _) => (Ret JNull, st, [Posted request])
                | Ret PASSED =>
                    (decrypted_response wo_res (session_key rnd)
                       (session_iv rnd),
                     st, [Posted request])
                end
            end
        end
    end.
Proof.
  intros Hreq request. subst request.
  unfold register_wo_processor, report_in_data, rpc_request in *.
  unfold bind, lift, ret, _post_and_get_result, _verify_res_signature.
  rewrite Hreq. simpl.
  destruct (_postmsg _) as [response|]; [|done].
  destruct (py_contains "result" response) as [[|]|]; [|done|done].
  destruct (py_getitem response "result") as [wo_res|]; [|done].
  destruct (verify_signature wo_res verifying_key) as [[|member]|];
    simpl; [|done|done].
  by destruct (decrypted_response wo_res _ _).
Qed.

(** The third step. *)
Lemma preprocess_work_order_posts {St : Type} (rnd : Entropy)
    (wo_request : json) (encryption_key verifying_key : string) (st : St) :
  let request := preprocess_request rnd wo_request encryption_key in
  preprocess_work_order rnd wo_request encryption_key verifying_key st =
    match _postmsg (json_dumps None request) with
    | Raise e => (Raise e, st, [Posted request])
    | Ret _ => (Ret JNull, st, [Posted request])
    end.
Proof.
  intros request. subst request.
  unfold preprocess_work_order, preprocess_request, rpc_request.
  unfold bind, lift, ret, _post_and_get_result. simpl.
  by destruct (_postmsg _).
Qed.

Lemma py_contains_missing (k : string) (kvs : list (string * json)) :
  assoc k kvs = None → py_contains k (JObj kvs) = Ret false.
Proof.
  intros Hnone. unfold py_contains. rewrite Hnone.
  rewrite bool_decide_eq_false_2; [done|]. by intros [??].
Qed.

(** C9 (amended): in each step, a response object without a [result]
    field makes the step return [None] (the third step returns [None] for
    every response), whereas an exception raised by the transport is not
    caught and leaves the requester as raised. *)
Theorem C9_missing_result_is_none_transport_error_propagates {St : Type}
    (rnd : Entropy) (encryption_key verifying_key : string) (st : St) :
  (∀ nonce wo_req,
      _construct_wo_req rnd (nonce_in_data nonce) "kme-uid" encryption_key
        (session_key rnd) (session_iv rnd) = Ret wo_req →
      let request :=
        rpc_request rnd "GetUniqueVerificationKey"
          (JObj [("wo_request", wo_req)]) in
      let run :=
        get_unique_verification_key rnd nonce encryption_key verifying_key st in
      (∀ kvs, _postmsg (json_dumps None request) = Ret (JObj kvs) →
              assoc "result" kvs = None → outcome run = Ret JNull) ∧
      (∀ e, _postmsg (json_dumps None request) = Raise e →
            outcome run = Raise e)) ∧
  (∀ report wo_req,
      _construct_wo_req rnd (report_in_data report) "kme-reg" encryption_key
        (session_key rnd) (session_iv rnd) = Ret wo_req →
      let request :=
        rpc_request rnd "RegisterWorkOrderProcessor"
          (JObj [("wo_request", wo_req)]) in
      let run :=
        register_wo_processor rnd report encryption_key verifying_key st in
      (∀ kvs, _postmsg (json_dumps None request) = Ret (JObj kvs) →
              assoc "result" kvs = None → outcome run = Ret JNull) ∧
      (∀ e, _postmsg (json_dumps None request) = Raise e →
            outcome run = Raise e)) ∧
  (∀ wo_request,
      let request := preprocess_request rnd wo_request encryption_key in
      let run :=
        preprocess_work_order rnd wo_request encryption_key verifying_key st in
      (∀ response, _postmsg (json_dumps None request) = Ret response →
                   outcome run = Ret JNull) ∧
      (∀ e, _postmsg (json_dumps None request) = Raise e →
            outcome run = Raise e)).
Proof.
  split_and!.
  - intros nonce wo_req Hreq request run. subst run request.
    rewrite (get_unique_verification_key_posts _ _ _ _ _ _ Hreq).
    split.
    + intros kvs -> Hnone. by rewrite (py_contains_missing _ _ Hnone).
    + by intros e ->.
  - intros report wo_req Hreq request run. subst run request.
    rewrite (register_wo_processor_posts _ _ _ _ _ _ Hreq).
    split.
    + intros kvs -> Hnone. by rewrite (py_contains_missing _ _ Hnone).
    + by intros e ->.
  - intros wo_request request run. subst run request.
    rewrite preprocess_work_order_posts.
    split.
    + by intros response ->.
    + by intros e ->.
Qed.

(** C10: [preprocess_work_order] hands no result to its caller: whatever
    response the remote authority sends, the method returns [None], and
    [None] is the only value it ever returns. *)
Theorem C10_preprocess_work_order_returns_none {St : Type} (rnd : Entropy)
    (wo_request : json) (encryption_key verifying_key : string) (st : St) :
  let run :=
    preprocess_work_order rnd wo_request encryption_key verifying_key st in
  (∀ response,
      _postmsg (json_dumps None
                  (preprocess_request rnd wo_request encryption_key))
        = Ret response →
      outcome run = Ret JNull) ∧
  (∀ v, outcome run = Ret v → v = JNull).
Proof.
  intros run. subst run. rewrite preprocess_work_order_posts.
  split.
  - by intros response ->.
  - intros v. destruct (_postmsg _); unfold outcome; simpl; congruence.
Qed.

(** [_create_signup_data] when the requester has no key to give. *)
Lemma create_signup_data_no_key
    (requester : string → M WpeManager kme_event json)
    (st st1 : WpeManager) (tr1 : list kme_event) :
  new_enclave_info = Ret tt →
  requester (GenerateNonce 32) st = (Ret JNull, st1, tr1) →
  _create_signup_data requester st = (Ret None, st1, tr1).
Proof.
  intros Hinfo Hreq. unfold _create_signup_data, bind, lift, ret.
  rewrite Hinfo, Hreq. simpl. by rewrite app_nil_r.
Qed.

(** [_create_signup_data] when the local check of the key's signature
    answers non-zero. *)
Lemma create_signup_data_bad_signature
    (requester : string → M WpeManager kme_event json)
    (st st1 : WpeManager) (tr1 : list kme_event) (response : json)
    (key signature : string) :
  new_enclave_info = Ret tt →
  requester (GenerateNonce 32) st = (Ret response, st1, tr1) →
  response ≠ JNull →
  split_field response 1 = Ret key →
  split_field response 2 = Ret signature →
  VerifyUniqueIdSignature key signature ≠ 0 →
  _create_signup_data requester st =
    (Ret None, with_unique_key st1 key signature,
     tr1 ++ [CheckedUniqueId key signature]).
Proof.
  intros Hinfo Hreq Hnn Hkey Hsig Hbad.
  unfold _create_signup_data, bind, lift, ret, with_unique_key.
  rewrite Hinfo, Hreq. simpl.
  destruct response; try done; rewrite Hkey, Hsig; simpl.
  all: destruct (Z.eqb_spec (VerifyUniqueIdSignature key signature) 0);
    [done|]; simpl; done.
Qed.

(** The handshake stops where [_create_signup_data] returned [None]. *)
Lemma run_handshake_halts
    (requester : string → M WpeManager kme_event json)
    (register : json → M WpeManager kme_event json)
    (st st1 : WpeManager) (tr1 : list kme_event) :
  _create_signup_data requester st = (Ret None, st1, tr1) →
  run_handshake requester register st = (Ret None, st1, tr1).
Proof.
  intros Hrun. unfold run_handshake, bind, ret. rewrite Hrun.
  by rewrite app_nil_r.
Qed.

(** C8: in the GetUniqueVerificationKey step, when the signature of the
    response fails verification the requester returns [None], and when the
    requester returns [None] or the local check of the received key's
    signature is non-zero, [_create_signup_data] returns [None]; in each
    case the handshake stops there: no signup data is created and the
    registration step is not run. *)
Theorem C8_unverified_key_halts_handshake (rnd : Entropy)
    (encryption_key verifying_key : string)
    (register : json → M WpeManager kme_event json) (st : WpeManager) :
  new_enclave_info = Ret tt →
  (∀ wo_req response wo_res member,
      _construct_wo_req rnd (nonce_in_data (GenerateNonce 32)) "kme-uid"
        encryption_key (session_key rnd) (session_iv rnd) = Ret wo_req →
      let request :=
        rpc_request rnd "GetUniqueVerificationKey"
          (JObj [("wo_request", wo_req)]) in
      let requester := wpe_requester_with rnd encryption_key verifying_key in
      _postmsg (json_dumps None request) = Ret response →
      py_contains "result" response = Ret true →
      py_getitem response "result" = Ret wo_res →
      verify_signature wo_res verifying_key = Ret (NOT_PASSED member) →
      outcome (get_unique_verification_key rnd (GenerateNonce 32)
                 encryption_key verifying_key st) = Ret JNull ∧
      outcome (_create_signup_data requester st) = Ret None ∧
      run_handshake requester register st = (Ret None, st, [Posted request])) ∧
  (∀ requester st1 tr1,
      requester (GenerateNonce 32) st = (Ret JNull, st1, tr1) →
      outcome (_create_signup_data requester st) = Ret None ∧
      run_handshake requester register st = (Ret None, st1, tr1)) ∧
  (∀ requester response st1 tr1 key signature,
      requester (GenerateNonce 32) st = (Ret response, st1, tr1) →
      response ≠ JNull →
      split_field response 1 = Ret key →
      split_field response 2 = Ret signature →
      VerifyUniqueIdSignature key signature ≠ 0 →
      outcome (_create_signup_data requester st) = Ret None ∧
      run_handshake requester register st =
        (Ret None, with_unique_key st1 key signature,
         tr1 ++ [CheckedUniqueId key signature])).
Proof.
  intros Hinfo. split_and!.
  - intros wo_req response wo_res member Hreq request requester
      Hpost Hhas Hres Hver.
    assert (get_unique_verification_key rnd (GenerateNonce 32)
              encryption_key verifying_key st
            = (Ret JNull, st, [Posted request])) as Hrun.
    { rewrite (get_unique_verification_key_posts _ _ _ _ _ _ Hreq).
      fold request. by rewrite Hpost, Hhas, Hres, Hver. }
    assert (_create_signup_data requester st
            = (Ret None, st, [Posted request])) as Hsignup.
    { by apply create_signup_data_no_key. }
    split_and!.
    + by rewrite Hrun.
    + by rewrite Hsignup.
    + by apply run_handshake_halts.
  - intros requester st1 tr1 Hreq.
    pose proof (create_signup_data_no_key requester st st1 tr1 Hinfo Hreq)
      as Hsignup.
    split; [by rewrite Hsignup|by apply run_handshake_halts].
  - intros requester response st1 tr1 key signature Hreq Hnn Hkey Hsig Hbad.
    pose proof (create_signup_data_bad_signature requester st st1 tr1
                  response key signature Hinfo Hreq Hnn Hkey Hsig Hbad)
      as Hsignup.
    split; [by rewrite Hsignup|by apply run_handshake_halts].
Qed.
End KmeFacts.

(** ** The scenarios of the specification, run on the code *)

Example py_split_fields :
  py_split " "%char "ok unique-key signature" = ["ok"; "unique-key"; "signature"].
Proof. reflexivity. Qed.

Example substring_of_error_response :
  is_substring "error" "{error: {code: 2}}" = true.
Proof. reflexivity. Qed.

(** A sweep that meets a stored response without a status stops there and
    leaves the later entries as they were. *)
Example boot_stops_on_statusless_response :
  outcome (@manager_on_boot scenario_codec scenario_externals
             scenario_self scenario_bad_response) = Raise KeyError ∧
  final (@manager_on_boot scenario_codec scenario_externals
           scenario_self scenario_bad_response) !! ("wo-processing", "wo3")
    = Some "PROCESSING".
Proof. vm_compute. split; reflexivity. Qed.

(** An error answer to [wo1], which has a receipt: the status table says
    SUCCESS and the receipt says FAILED. *)
Lemma C1_witness :
  scenario_A_receipt !! ("wo-requests", "wo1") = Some "{}" ∧
  @response_is_error refusing_enclave
    (JObj [("error", JObj [("code", JInt 2)])]) = Ret true ∧
  final (@process_work_order_by_id error_codec refusing_enclave
           "wo1" scenario_A_receipt) !! ("wo-processed", "wo1")
    = Some "SUCCESS" ∧
  final (@process_work_order_by_id error_codec refusing_enclave
           "wo1" scenario_A_receipt) !! ("wo-responses", "wo1")
    = Some error_response_text ∧
  final (@process_work_order_by_id error_codec refusing_enclave
           "wo1" scenario_A_receipt) !! ("wo-receipt-updates", "wo1")
    = Some failed_updates_text.
Proof.
  assert (scenario_A_receipt !! ("wo-requests", "wo1") = Some "{}") as Hreq
    by (vm_compute; reflexivity).
  assert (@response_is_error refusing_enclave
            (JObj [("error", JObj [("code", JInt 2)])]) = Ret true) as Herr
    by (vm_compute; reflexivity).
  split; [exact Hreq|]. split; [exact Herr|].
  refine (proj2 (proj2 (@C1_error_answer_recorded_as_success
            error_codec refusing_enclave "wo1" "{}" error_response_text
            (JObj [("error", JObj [("code", JInt 2)])])
            (JObj [("workOrderId", JStr "wo1"); ("updateType", JInt 3)])
            scenario_A_receipt Hreq _ _ _ _ Herr _ _ _)));
    vm_compute; reflexivity.
Defined.

(** A completed receipt stays as it is. *)
Lemma C2_witness :
  @receipt_frozen scenario_codec scenario_externals scenario_completed "wo1"
    = true ∧
  final (@__update_receipt scenario_codec scenario_externals "wo1"
           (JObj [("result", JObj [])]) scenario_completed)
    = scenario_completed.
Proof.
  assert (@receipt_frozen scenario_codec scenario_externals
            scenario_completed "wo1" = true) as Hfrozen
    by (vm_compute; reflexivity).
  split; [exact Hfrozen|].
  exact (proj1 (@C2_completed_receipt_is_frozen scenario_codec
                  scenario_externals "wo1" (JObj [("result", JObj [])])
                  scenario_completed Hfrozen)).
Defined.

(** Scenario B: the malformed request leaves [wo2] marked as processing,
    with nothing recorded, and the call raises. *)
Lemma C4_witness :
  scenario_B !! ("wo-requests", "wo2") = Some "{not json" ∧
  @json_loads scenario_codec "{not json" = None ∧
  outcome (@process_work_order_by_id scenario_codec scenario_externals
             "wo2" scenario_B) = Raise NameError ∧
  final (@process_work_order_by_id scenario_codec scenario_externals
           "wo2" scenario_B) !! ("wo-processing", "wo2") = Some "PROCESSING" ∧
  final (@process_work_order_by_id scenario_codec scenario_externals
           "wo2" scenario_B) !! ("wo-processed", "wo2") = None ∧
  final (@process_work_order_by_id scenario_codec scenario_externals
           "wo2" scenario_B) !! ("wo-responses", "wo2") = None.
Proof.
  assert (scenario_B !! ("wo-requests", "wo2") = Some "{not json") as Hreq
    by (vm_compute; reflexivity).
  assert (@json_loads scenario_codec "{not json" = None) as Hbad
    by (vm_compute; reflexivity).
  split; [exact Hreq|]. split; [exact Hbad|].
  exact (@C4_malformed_request_raises scenario_codec scenario_externals
           "wo2" "{not json" scenario_B Hreq Hbad).
Defined.



(** Scenario C, one iteration of the sweep. *)
Lemma C6_witness :
  scenario_C !! ("wo-responses", "wo3") = None ∧
  final (@boot_step scenario_codec scenario_externals "wo3" scenario_C)
    !! ("wo-processing", "wo3") = None.
Proof.
  assert (scenario_C !! ("wo-responses", "wo3") = None) as Hresp
    by (vm_compute; reflexivity).
  split; [exact Hresp|].
  exact (proj1 (proj2 (proj2
    (@C6_boot_step_removes_processing_marker scenario_codec
       scenario_externals "wo3" scenario_C Hresp)))).
Defined.

(** C6 as stated fails: in scenario C the id has a processing entry and no
    response, and after the sweep the entry is not the one that was there:
    it has been removed. *)
Lemma C6_counterexample :
  scenario_C !! ("wo-processing", "wo3") = Some "PROCESSING" ∧
  scenario_C !! ("wo-responses", "wo3") = None ∧
  outcome (@manager_on_boot scenario_codec scenario_externals
             scenario_self scenario_C) = Ret tt ∧
  final (@manager_on_boot scenario_codec scenario_externals
           scenario_self scenario_C) !! ("wo-scheduled", "wo3")
    = Some "SCHEDULED" ∧
  final (@manager_on_boot scenario_codec scenario_externals
           scenario_self scenario_C) !! ("wo-processing", "wo3")
    ≠ scenario_C !! ("wo-processing", "wo3").
Proof. vm_compute. split_and!; try reflexivity. discriminate. Qed.

(** The order of the store calls in scenario A. *)
Lemma C7_witness :
  trace (@process_work_order_by_id scenario_codec scenario_externals
           "wo1" scenario_A) =
    [KvSet "wo-processing" "wo1" "PROCESSING"; KvGet "wo-requests" "wo1";
     KvSet "wo-processing" "wo1" "PROCESSING"] ++
    KvRemove "wo-scheduled" "wo1" ::
    [KvGet "wo-receipts" "wo1"; KvSet "wo-processed" "wo1" "SUCCESS";
     KvSet "wo-responses" "wo1" ok_response_text;
     KvRemove "wo-processing" "wo1"] ∧
  apply_ops scenario_A
    [KvSet "wo-processing" "wo1" "PROCESSING"; KvGet "wo-requests" "wo1";
     KvSet "wo-processing" "wo1" "PROCESSING"]
    !! ("wo-processing", "wo1") = Some "PROCESSING".
Proof.
  assert (trace (@process_work_order_by_id scenario_codec scenario_externals
                   "wo1" scenario_A) =
            [KvSet "wo-processing" "wo1" "PROCESSING"; KvGet "wo-requests" "wo1";
             KvSet "wo-processing" "wo1" "PROCESSING"] ++
            KvRemove "wo-scheduled" "wo1" ::
            [KvGet "wo-receipts" "wo1"; KvSet "wo-processed" "wo1" "SUCCESS";
             KvSet "wo-responses" "wo1" ok_response_text;
             KvRemove "wo-processing" "wo1"]) as Htrace
    by (vm_compute; reflexivity).
  split; [exact Htrace|].
  exact (proj2 (proj1 (@C7_processing_marker_precedes_scheduled_removal
                         scenario_codec scenario_externals "wo1" scenario_A)
                  _ _ Htrace)).
Defined.

(** Scenario D: a response whose signature does not verify, and a key whose
    own signature the enclave rejects, both stop the handshake before
    registration. *)
Lemma C8_witness :
  @new_enclave_info scenario_kme = Ret tt ∧
  @run_handshake scenario_kme
    (@wpe_requester_with scenario_codec scenario_kme scenario_entropy
       "encryption-key" "other-key")
    (fun report =>
       @register_wo_processor scenario_codec scenario_kme WpeManager
         scenario_entropy report "encryption-key" "other-key")
    fresh_manager
  = (Ret None, fresh_manager,
     [Posted (rpc_request scenario_entropy "GetUniqueVerificationKey"
                (JObj [("wo_request",
                        JObj [("jsonrpc", JStr "2.0");
                              ("method", JStr "kme-uid");
                              ("id", JInt 7); ("params", JObj [])])]))]) ∧
  outcome
    (@_create_signup_data scenario_kme
       (@wpe_requester_with scenario_codec scenario_kme scenario_entropy
          "encryption-key" "kme-key")
       fresh_manager) = Ret None.
Proof.
  assert (@new_enclave_info scenario_kme = Ret tt) as Hinfo by reflexivity.
  split; [exact Hinfo|].
  pose proof (@C8_unverified_key_halts_handshake scenario_codec scenario_kme
                scenario_entropy "encryption-key" "other-key"
                (fun report =>
                   @register_wo_processor scenario_codec scenario_kme
                     WpeManager scenario_entropy report
                     "encryption-key" "other-key")
                fresh_manager Hinfo) as (Hsig & _ & _).
  pose proof (@C8_unverified_key_halts_handshake scenario_codec scenario_kme
                scenario_entropy "encryption-key" "kme-key"
                (fun _ => ret JNull) fresh_manager Hinfo) as (_ & _ & Hkey).
  split.
  - refine (proj2 (proj2 (Hsig _ (JObj [("result", JObj [])]) (JObj [])
                            "FAILED" _ _ _ _ _)));
      vm_compute; reflexivity.
  - refine (proj1 (Hkey _ (JStr "ok unique-key forged-signature")
                     fresh_manager _ "unique-key" "forged-signature"
                     _ _ _ _ _)).
    + vm_compute. reflexivity.
    + discriminate.
    + vm_compute. reflexivity.
    + vm_compute. reflexivity.
    + vm_compute. discriminate.
Defined.

(** C9 as stated fails: when the transport raises, or hands back [None],
    the first step raises instead of returning [None]. *)
Lemma C9_counterexample :
  outcome (@get_unique_verification_key scenario_codec unreachable_kme unit
             scenario_entropy "nonce" "encryption-key" "kme-key" tt)
    = Raise (ExternalError "operation failed") ∧
  outcome (@get_unique_verification_key scenario_codec silent_kme unit
             scenario_entropy "nonce" "encryption-key" "kme-key" tt)
    = Raise TypeError ∧
  outcome (@get_unique_verification_key scenario_codec unreachable_kme unit
             scenario_entropy "nonce" "encryption-key" "kme-key" tt)
    ≠ Ret JNull.
Proof. vm_compute. split_and!; try reflexivity. discriminate. Qed.

(** An error reply without a result makes the first step return [None]. *)
Lemma C9_witness :
  outcome (@get_unique_verification_key scenario_codec refusing_kme unit
             scenario_entropy "nonce" "encryption-key" "kme-key" tt)
    = Ret JNull.
Proof.
  pose proof (@C9_missing_result_is_none_transport_error_propagates
                scenario_codec refusing_kme unit scenario_entropy
                "encryption-key" "kme-key" tt) as (Hfirst & _ & _).
  refine (proj1 (Hfirst "nonce" _ _)
            [("error", JObj [("code", JInt 2)])] _ _);
    vm_compute; reflexivity.
Defined.

(** The third step drops the result the KME sent. *)
Lemma C10_witness :
  @_postmsg scenario_kme
    (@json_dumps scenario_codec None
       (preprocess_request scenario_entropy (JObj []) "encryption-key"))
    = Ret (JObj [("result", JObj [])]) ∧
  outcome (@preprocess_work_order scenario_codec scenario_kme unit
             scenario_entropy (JObj []) "encryption-key" "kme-key" tt)
    = Ret JNull.
Proof.
  assert (@_postmsg scenario_kme
            (@json_dumps scenario_codec None
               (preprocess_request scenario_entropy (JObj [])
                  "encryption-key"))
          = Ret (JObj [("result", JObj [])])) as Hpost by reflexivity.
  split; [exact Hpost|].
  exact (proj1 (@C10_preprocess_work_order_returns_none scenario_codec
                  scenario_kme unit scenario_entropy (JObj [])
                  "encryption-key" "kme-key" tt) _ Hpost).
Defined.

(** ** The steady-state transition: further facts *)

Section TransitionFacts.
Context {codec : JsonCodec} {ext : Externals}.

(** What the transition does once the request has been found and parsed:
    the store it reaches before the enclave is called. *)
Lemma by_id_claimed_store (wo_id : string)
    (s : gmap (string * string) string) :
  delete ("wo-scheduled", wo_id)
    (<[("wo-processing", wo_id) := "PROCESSING"]>
       (<[("wo-processing", wo_id) := "PROCESSING"]> s)) =
  delete ("wo-scheduled", wo_id) (<[("wo-processing", wo_id) := "PROCESSING"]> s).
Proof. by rewrite insert_insert_eq. Qed.

Lemma by_id_frame (wo_id : string)
    (s : gmap (string * string) string) (t k : string) :
  k ≠ wo_id ∨ t ∉ by_id_written →
  final (process_work_order_by_id wo_id s) !! (t, k) = s !! (t, k).
Proof.
  intros Hk.
  assert (∀ t', t' ∈ by_id_written → (t', wo_id) ≠ (t, k)) as Hne.
  { intros t' Hin ?; simplify_eq. destruct Hk as [?|Hk]; [done|by apply Hk]. }
  assert (("wo-processing", wo_id) ≠ (t, k)) as Hproc
    by (apply Hne; in_tables).
  assert (("wo-scheduled", wo_id) ≠ (t, k)) as Hsched
    by (apply Hne; in_tables).
  assert (("wo-processed", wo_id) ≠ (t, k)) as Hdone
    by (apply Hne; in_tables).
  assert (("wo-responses", wo_id) ≠ (t, k)) as Hresp
    by (apply Hne; in_tables).
  assert (("wo-receipt-updates", wo_id) ≠ (t, k)) as Hupd
    by (apply Hne; in_tables).
  unfold process_work_order_by_id, validate_request. run_monad.
  rewrite lookup_insert_ne by done.
  destruct (s !! ("wo-requests", wo_id)) as [req|]; simpl.
  2: { rewrite lookup_delete_ne by done. by rewrite lookup_insert_ne. }
  destruct (json_loads req) as [parsed|]; simpl.
  2: { rewrite lookup_delete_ne by done. by rewrite !lookup_insert_ne. }
  destruct (_execute_work_order req) as [wo_json_resp|]; simpl.
  2: { rewrite lookup_delete_ne by done. by rewrite !lookup_insert_ne. }
  unfold loads.
  destruct (json_loads wo_json_resp) as [wo_resp|]; simpl.
  2: { rewrite lookup_delete_ne by done. by rewrite !lookup_insert_ne. }
  match goal with |- context [__update_receipt ?w ?r ?s0] =>
    pose proof (update_receipt_effect w r s0) as Heff;
    destruct (__update_receipt w r s0) as [[[[]|e] s2] tr]
  end; simpl.
  - assert (s2 !! (t, k) = s !! (t, k)) as Hs2.
    { destruct Heff as [->|[v ->]]; rewrite ?lookup_insert_ne by done;
        rewrite lookup_delete_ne by done; by rewrite !lookup_insert_ne. }
    destruct (response_failed wo_resp) as [[|]|]; simpl;
      rewrite ?lookup_delete_ne by done; rewrite ?lookup_insert_ne by done;
      done.
  - subst s2. rewrite lookup_delete_ne by done. by rewrite !lookup_insert_ne.
Qed.

(** X1: [process_work_order_by_id] touches nothing but the entries of its
    own id in the five tables it writes, whatever the outcome; the request
    and receipt tables and every other work order are left as they were. *)
Theorem X1_transition_touches_only_its_id (wo_id : string)
    (s : gmap (string * string) string) (t k : string) :
  k ≠ wo_id ∨ t ∉ by_id_written →
  final (process_work_order_by_id wo_id s) !! (t, k) = s !! (t, k).
Proof. apply by_id_frame. Qed.

(** X2: when the id has no request entry the call returns [None]; the
    processing marker is withdrawn (an older marker of the same id goes with
    it) and everything else, the scheduled entry included, stays. *)
Theorem X2_missing_request_is_abandoned (wo_id : string)
    (s : gmap (string * string) string) :
  s !! ("wo-requests", wo_id) = None →
  outcome (process_work_order_by_id wo_id s) = Ret None ∧
  final (process_work_order_by_id wo_id s) = delete ("wo-processing", wo_id) s ∧
  final (process_work_order_by_id wo_id s) !! ("wo-scheduled", wo_id)
    = s !! ("wo-scheduled", wo_id).
Proof.
  intros Hreq. unfold process_work_order_by_id. run_monad.
  rewrite lookup_insert_ne by done. rewrite Hreq. simpl.
  rewrite delete_insert_eq. split_and!; [done|done|].
  by rewrite lookup_delete_ne.
Qed.

(** The test of lines 268-269 raising, after a receipt update that
    returned. *)
Lemma by_id_raised_effect_at (wo_id req text : string) (wo_resp : json)
    (e : exn) (s : gmap (string * string) string) :
  s !! ("wo-requests", wo_id) = Some req →
  validate_request req = true →
  _execute_work_order req = Ret text →
  json_loads text = Some wo_resp →
  outcome (__update_receipt wo_id wo_resp
             (delete ("wo-scheduled", wo_id)
                (<[("wo-processing", wo_id) := "PROCESSING"]> s))) = Ret tt →
  response_failed wo_resp = Raise e →
  let run := process_work_order_by_id wo_id s in
  outcome run = Raise e ∧
  final run !! ("wo-processing", wo_id) = Some "PROCESSING" ∧
  final run !! ("wo-scheduled", wo_id) = None ∧
  final run !! ("wo-processed", wo_id) = s !! ("wo-processed", wo_id) ∧
  final run !! ("wo-responses", wo_id) = s !! ("wo-responses", wo_id).
Proof.
  intros Hreq Hvalid Hexec Hparse Hupd Hfailed run. subst run.
  unfold process_work_order_by_id. run_monad.
  rewrite lookup_insert_ne by done. rewrite Hreq. simpl.
  rewrite Hvalid. simpl. rewrite Hexec. simpl.
  unfold loads. rewrite Hparse. simpl.
  rewrite by_id_claimed_store.
  match goal with |- context [__update_receipt ?w ?r ?s0] =>
    pose proof (update_receipt_effect w r s0) as Heff;
    destruct (__update_receipt w r s0) as [[[[]|e'] s2] tr]
  end; simpl in *; [|done].
  rewrite Hfailed. simpl.
  destruct Heff as [->|[v ->]]; rewrite ?lookup_insert_ne by done;
    rewrite ?lookup_delete_eq; rewrite ?lookup_delete_ne by done;
    rewrite ?lookup_insert_eq; rewrite ?lookup_insert_ne by done; done.
Qed.

(** X3: the regular run.  When the request parses, the enclave answers, the
    answer parses and the receipt update does not raise, everything turns on
    the test of lines 268-269.  If the test evaluates, the call returns, with
    the response when the test is false and [None] when it is true; the
    response text is stored, the status recorded is SUCCESS or FAILED by the
    test, and the id is in neither [wo-scheduled] nor [wo-processing].  If
    the test raises (a [Response] entry without [Status]), the call raises
    the same exception after the receipt update: the id stays marked in
    [wo-processing], out of [wo-scheduled], and neither a status nor a
    response is recorded. *)
Theorem X3_transition_completes (wo_id req text : string) (wo_resp : json)
    (s : gmap (string * string) string) :
  s !! ("wo-requests", wo_id) = Some req →
  validate_request req = true →
  _execute_work_order req = Ret text →
  json_loads text = Some wo_resp →
  outcome (__update_receipt wo_id wo_resp
             (delete ("wo-scheduled", wo_id)
                (<[("wo-processing", wo_id) := "PROCESSING"]> s))) = Ret tt →
  let run := process_work_order_by_id wo_id s in
  match response_failed wo_resp with
  | Ret failed =>
      outcome run = Ret (if failed then None else Some wo_resp) ∧
      final run !! ("wo-processed", wo_id) = Some (terminal_status failed) ∧
      final run !! ("wo-responses", wo_id) = Some text ∧
      final run !! ("wo-scheduled", wo_id) = None ∧
      final run !! ("wo-processing", wo_id) = None
  | Raise e =>
      outcome run = Raise e ∧
      final run !! ("wo-processing", wo_id) = Some "PROCESSING" ∧
      final run !! ("wo-scheduled", wo_id) = None ∧
      final run !! ("wo-processed", wo_id) = s !! ("wo-processed", wo_id) ∧
      final run !! ("wo-responses", wo_id) = s !! ("wo-responses", wo_id)
  end.
Proof.
  intros Hreq Hvalid Hexec Hparse Hupd run. subst run.
  destruct (response_failed wo_resp) as [failed|e0] eqn:Hfailed.
  2: { pose proof (by_id_raised_effect_at wo_id req text wo_resp e0 s
                     Hreq Hvalid Hexec Hparse Hupd Hfailed) as H.
       exact H. }
  unfold process_work_order_by_id. run_monad.
  rewrite lookup_insert_ne by done. rewrite Hreq. simpl.
  rewrite Hvalid. simpl. rewrite Hexec. simpl.
  unfold loads. rewrite Hparse. simpl.
  rewrite by_id_claimed_store.
  match goal with |- context [__update_receipt ?w ?r ?s0] =>
    pose proof (update_receipt_effect w r s0) as Heff;
    destruct (__update_receipt w r s0) as [[[[]|e] s2] tr]
  end; simpl in *; [|done].
  assert (s2 !! ("wo-scheduled", wo_id) = None) as Hsched.
  { destruct Heff as [->|[v ->]]; rewrite ?lookup_insert_ne by done;
      by rewrite lookup_delete_eq. }
  rewrite Hfailed. simpl.
  destruct failed; simpl; split_and!; try done.
  all: rewrite ?lookup_delete_ne by done; rewrite ?lookup_delete_eq;
    rewrite ?lookup_insert_eq; rewrite ?lookup_insert_ne by done;
    rewrite ?lookup_insert_eq; done.
Qed.

Lemma by_id_raised_effect (wo_id : string) (e : exn)
    (s : gmap (string * string) string) :
  outcome (process_work_order_by_id wo_id s) = Raise e →
  let run := process_work_order_by_id wo_id s in
  is_Some (s !! ("wo-requests", wo_id)) ∧
  final run !! ("wo-processing", wo_id) = Some "PROCESSING" ∧
  final run !! ("wo-scheduled", wo_id) = None ∧
  final run !! ("wo-processed", wo_id) = s !! ("wo-processed", wo_id) ∧
  final run !! ("wo-responses", wo_id) = s !! ("wo-responses", wo_id).
Proof.
  unfold process_work_order_by_id, validate_request. run_monad.
  rewrite lookup_insert_ne by done.
  destruct (s !! ("wo-requests", wo_id)) as [req|]; simpl; [|done].
  rewrite by_id_claimed_store.
  assert (∀ s2 : gmap (string * string) string,
            s2 = delete ("wo-scheduled", wo_id)
                   (<[("wo-processing", wo_id) := "PROCESSING"]> s) →
            is_Some (Some req) ∧
            s2 !! ("wo-processing", wo_id) = Some "PROCESSING" ∧
            s2 !! ("wo-scheduled", wo_id) = None ∧
            s2 !! ("wo-processed", wo_id) = s !! ("wo-processed", wo_id) ∧
            s2 !! ("wo-responses", wo_id) = s !! ("wo-responses", wo_id))
    as Hleft.
  { intros s2 ->. split_and!; [by eexists|..];
      rewrite ?lookup_delete_eq; rewrite ?lookup_delete_ne by done;
      rewrite ?lookup_insert_eq; rewrite ?lookup_insert_ne by done; done. }
  destruct (json_loads req) as [parsed|]; simpl; [|intros _; by apply Hleft].
  destruct (_execute_work_order req) as [wo_json_resp|]; simpl;
    [|intros _; by apply Hleft].
  unfold loads.
  destruct (json_loads wo_json_resp) as [wo_resp|]; simpl;
    [|intros _; by apply Hleft].
  match goal with |- context [__update_receipt ?w ?r ?s0] =>
    pose proof (update_receipt_effect w r s0) as Heff;
    destruct (__update_receipt w r s0) as [[[[]|e'] s2] tr]
  end; simpl in *; [|intros _; by apply Hleft].
  destruct (response_failed wo_resp) as [[|]|]; simpl; [done|done|].
  intros _.
  destruct Heff as [->|[v ->]]; [by apply Hleft|].
  destruct (Hleft _ eq_refl) as (? & ? & ? & ? & ?).
  split_and!; [done|..]; by rewrite lookup_insert_ne.
Qed.

(** X4: a claimed work order whose processing raises is left behind for the
    boot sweep, the store answering every call: the exception comes from
    the validation branch, the enclave call, the parsing of the answer, the
    receipt update or the test of the answer; the marker of the id stays in
    [wo-processing], the id is gone from [wo-scheduled], and neither a
    status nor a response is recorded. *)
Theorem X4_raising_transition_leaves_marker (wo_id : string) (e : exn)
    (s : gmap (string * string) string) :
  outcome (process_work_order_by_id wo_id s) = Raise e →
  let run := process_work_order_by_id wo_id s in
  is_Some (s !! ("wo-requests", wo_id)) ∧
  final run !! ("wo-processing", wo_id) = Some "PROCESSING" ∧
  final run !! ("wo-scheduled", wo_id) = None ∧
  final run !! ("wo-processed", wo_id) = s !! ("wo-processed", wo_id) ∧
  final run !! ("wo-responses", wo_id) = s !! ("wo-responses", wo_id).
Proof. apply by_id_raised_effect. Qed.

(** A returned call on an id with a request: the id has left both queues
    and carries a terminal status. *)
Lemma by_id_returned_effect (wo_id : string) (v : option json)
    (s : gmap (string * string) string) :
  is_Some (s !! ("wo-requests", wo_id)) →
  outcome (process_work_order_by_id wo_id s) = Ret v →
  let run := process_work_order_by_id wo_id s in
  final run !! ("wo-scheduled", wo_id) = None ∧
  final run !! ("wo-processing", wo_id) = None ∧
  (final run !! ("wo-processed", wo_id) = Some "FAILED" ∨
   final run !! ("wo-processed", wo_id) = Some "SUCCESS").
Proof.
  intros [req Hreq].
  unfold process_work_order_by_id, validate_request. run_monad.
  rewrite lookup_insert_ne by done. rewrite Hreq. simpl.
  rewrite by_id_claimed_store.
  destruct (json_loads req) as [parsed|]; simpl; [|done].
  destruct (_execute_work_order req) as [wo_json_resp|]; simpl; [|done].
  unfold loads.
  destruct (json_loads wo_json_resp) as [wo_resp|]; simpl; [|done].
  match goal with |- context [__update_receipt ?w ?r ?s0] =>
    pose proof (update_receipt_effect w r s0) as Heff;
    destruct (__update_receipt w r s0) as [[[[]|e'] s2] tr]
  end; simpl in *; [|done].
  assert (s2 !! ("wo-scheduled", wo_id) = None) as Hsched.
  { destruct Heff as [->|[u ->]]; rewrite ?lookup_insert_ne by done;
      by rewrite lookup_delete_eq. }
  destruct (response_failed wo_resp) as [[|]|]; simpl; [| |done].
  all: intros _; split_and!.
  all: rewrite ?lookup_delete_eq; rewrite ?lookup_delete_ne by done;
    rewrite ?lookup_insert_eq; rewrite ?lookup_insert_ne by done;
    rewrite ?lookup_insert_eq; auto.
Qed.

(** X5: when the enclave call raises, [_execute_work_order] does not build
    the FAILED response its handler is written for: the handler reads the
    local [wo_response] that was never assigned, so the transition raises
    [UnboundLocalError]. *)
Theorem X5_enclave_exception_escapes (wo_id req : string) (e : exn)
    (s : gmap (string * string) string) :
  s !! ("wo-requests", wo_id) = Some req →
  validate_request req = true →
  sgx_execute req = Raise e →
  outcome (process_work_order_by_id wo_id s) = Raise UnboundLocalError.
Proof.
  intros Hreq Hvalid Hexec.
  unfold process_work_order_by_id, _execute_work_order. run_monad.
  rewrite lookup_insert_ne by done. rewrite Hreq. simpl.
  rewrite Hvalid. simpl. by rewrite Hexec.
Qed.
End TransitionFacts.

(** ** The receipt ledger: further facts *)

Section LedgerFacts.
Context {codec : JsonCodec} {ext : Externals}.

(** X6: a receipt update can change one entry only, the update list of its
    own id; when it raises, and when the id has no receipt (or an empty
    one), it changes nothing. *)
Theorem X6_receipt_update_is_local (wo_id : string) (resp : json)
    (s : gmap (string * string) string) :
  let run := __update_receipt wo_id resp s in
  (∀ t k, (t, k) ≠ ("wo-receipt-updates", wo_id) →
          final run !! (t, k) = s !! (t, k)) ∧
  (∀ e, outcome run = Raise e → final run = s) ∧
  (truthy (s !! ("wo-receipts", wo_id)) = false →
   outcome run = Ret tt ∧ final run = s).
Proof.
  intros run. subst run.
  pose proof (update_receipt_effect wo_id resp s) as Heff.
  split_and!.
  - intros t k Hne.
    destruct (__update_receipt wo_id resp s) as [[[[]|e] s2] tr];
      unfold final; simpl.
    + destruct Heff as [->|[v ->]]; [done|by rewrite lookup_insert_ne].
    + by subst s2.
  - intros e.
    destruct (__update_receipt wo_id resp s) as [[[[]|e'] s2] tr];
      unfold outcome, final; simpl; [done|by intros _].
  - intros Hnone. clear Heff. unfold __update_receipt. run_monad.
    by rewrite Hnone.
Qed.

(** X7: updates are appended.  For an id with a receipt, when the response
    classifies and the SDK builds the signed update, the stored list becomes
    the one-element list of that update if there was none, and the old list
    followed by that update if the old list is not empty and its last
    element has an [updateType] other than COMPLETED.  A stored empty list
    makes the call raise [IndexError], and nothing is written.  The update
    type is FAILED exactly for a response with an error whose code is not
    PENDING, and PROCESSED otherwise. *)
Theorem X7_receipt_update_appends (wo_id : string) (resp wo_receipt : json)
    (is_error : bool) (s : gmap (string * string) string) :
  truthy (s !! ("wo-receipts", wo_id)) = true →
  response_is_error resp = Ret is_error →
  sdk_update_receipt wo_id (receipt_update_type is_error) resp
    = Ret wo_receipt →
  let run := __update_receipt wo_id resp s in
  (s !! ("wo-receipt-updates", wo_id) = None →
   outcome run = Ret tt ∧
   final run = <[("wo-receipt-updates", wo_id) :=
                   json_dumps None (JArr [wo_receipt])]> s) ∧
  (∀ text updates last_update update,
      s !! ("wo-receipt-updates", wo_id) = Some text →
      json_loads text = Some (JArr updates) →
      last updates = Some last_update →
      py_getitem last_update "updateType" = Ret update →
      py_eq_int update ReceiptCreateStatus_COMPLETED_value = false →
      outcome run = Ret tt ∧
      final run = <[("wo-receipt-updates", wo_id) :=
                      json_dumps None (JArr (updates ++ [wo_receipt]))]> s) ∧
  (∀ text,
      s !! ("wo-receipt-updates", wo_id) = Some text →
      json_loads text = Some (JArr []) →
      outcome run = Raise IndexError ∧ final run = s).
Proof.
  intros Hreceipt Herr Hsdk run. subst run.
  unfold receipt_update_type in Hsdk.
  split_and!.
  - intros Hnone. unfold __update_receipt. run_monad.
    rewrite Hreceipt, Herr. simpl. rewrite Hsdk. simpl. by rewrite Hnone.
  - intros text updates last_update update Htext Hparse Hlast Hupd Hopen.
    pose proof (py_getitem_int_last updates last_update Hlast) as Hget.
    unfold py_getitem_int in Hget.
    unfold __update_receipt. run_monad.
    rewrite Hreceipt, Herr. simpl. rewrite Hsdk. simpl. rewrite Htext.
    unfold loads. rewrite Hparse. simpl. rewrite Hget. rewrite Hupd.
    by rewrite Hopen.
  - intros text Htext Hparse.
    unfold __update_receipt. run_monad.
    rewrite Hreceipt, Herr. simpl. rewrite Hsdk. simpl. rewrite Htext.
    unfold loads. by rewrite Hparse.
Qed.
End LedgerFacts.

(** ** The boot sweep: further facts *)

Section BootFacts.
Context {codec : JsonCodec} {ext : Externals}.

(** A property of the state that every iteration keeps is kept by the
    loop, however it ends. *)
Lemma for_each_preserves {St Ev A : Type} (P : St → Prop)
    (body : A → M St Ev unit) :
  (∀ x s, P s → P (final (body x s))) →
  ∀ l s, P s → P (final (for_each l body s)).
Proof.
  intros Hbody l. induction l as [|x rest IH]; intros s Hs; [done|].
  simpl. unfold bind. specialize (Hbody x s Hs).
  destruct (body x s) as [[[[]|e] s1] tr1]; unfold final in *; simpl in *;
    [|done].
  specialize (IH s1 Hbody).
  by destruct (for_each rest body s1) as [[r s2] tr2].
Qed.

(** Outside the four tables the loop writes, the store after boot is the
    store with the workers table republished. *)
Lemma boot_final_frame (self : EnclaveManager)
    (s : gmap (string * string) string) (t k : string) :
  t ∉ boot_written →
  final (manager_on_boot self s) !! (t, k) = workers_refreshed self s !! (t, k).
Proof.
  intros Ht. destruct (manager_on_boot_run self s) as [tr0 ->].
  set (s1 := workers_refreshed self s).
  set (l := kv_sorted_keys "wo-processing" s1).
  pose proof (boot_loop_effect l s1 (NoDup_kv_sorted_keys _ _)) as Hloop.
  destruct (for_each l boot_step s1) as [[[[]|e] s2] tr]; unfold final; simpl.
  - destruct Hloop as (_ & _ & Hframe). apply Hframe. by right.
  - destruct Hloop as (pre & j & post & trj & _ & _ & Hframe & _).
    apply Hframe. by right.
Qed.

(** X8: whatever was in the workers table, the store answering every call
    and the descriptor being built, after [manager_on_boot] the table holds
    exactly one entry, the descriptor of this manager under the hash of its
    enclave id; this is so when the loop over [wo-processing] returns and
    when an exception raised on one of its entries stops it. *)
Theorem X8_boot_republishes_single_worker (self : EnclaveManager)
    (s : gmap (string * string) string) (k : string) :
  final (manager_on_boot self s) !! ("workers", k) =
    if decide (k = sha256_hexdigest
                     (strip_begin_end_public_key (enclave_id self)))
    then Some (_create_json_worker self (config self))
    else None.
Proof.
  rewrite boot_final_frame by apply workers_not_written.
  rewrite workers_refreshed_lookup. by destruct (decide ("workers" = "workers")).
Qed.

(** X9: the boot sweep never writes to the request, response and receipt
    tables, nor to any table other than [workers] and the four it
    maintains. *)
Theorem X9_boot_leaves_other_tables (self : EnclaveManager)
    (s : gmap (string * string) string) (t k : string) :
  t ≠ "workers" → t ∉ boot_written →
  final (manager_on_boot self s) !! (t, k) = s !! (t, k).
Proof.
  intros Hw Ht. rewrite boot_final_frame by done.
  rewrite workers_refreshed_lookup. by rewrite decide_False.
Qed.

Lemma boot_step_keeps_processed (wo k v : string)
    (s : gmap (string * string) string) :
  s !! ("wo-processed", k) = Some v →
  final (boot_step wo s) !! ("wo-processed", k) = Some v.
Proof.
  intros Hv. unfold boot_step. run_monad.
  destruct (decide (k = wo)) as [->|Hne].
  - rewrite Hv.
    repeat (case_match; simplify_eq/=);
      repeat match goal with
      | Hu : __update_receipt ?w ?r ?s0 = _ |- _ =>
          let Hx := fresh in
          pose proof (update_receipt_effect w r s0) as Hx;
          rewrite Hu in Hx; clear Hu; simpl in Hx;
          first [ destruct Hx as [->|[? ->]] | subst ]
      end; simplify_eq/=;
      rewrite ?lookup_delete_ne by done; rewrite ?lookup_insert_ne by done;
      done.
  - repeat (case_match; simplify_eq/=);
      repeat match goal with
      | Hu : __update_receipt ?w ?r ?s0 = _ |- _ =>
          let Hx := fresh in
          pose proof (update_receipt_effect w r s0) as Hx;
          rewrite Hu in Hx; clear Hu; simpl in Hx;
          first [ destruct Hx as [->|[? ->]] | subst ]
      end; simplify_eq/=;
      rewrite ?lookup_delete_ne by done;
      rewrite ?lookup_insert_ne by (intros ?; simplify_eq);
      rewrite ?lookup_insert_ne by done;
      done.
Qed.

(** X10: a status already recorded in [wo-processed] is never overwritten
    by the boot sweep. *)
Theorem X10_boot_keeps_recorded_status (self : EnclaveManager)
    (s : gmap (string * string) string) (k v : string) :
  s !! ("wo-processed", k) = Some v →
  final (manager_on_boot self s) !! ("wo-processed", k) = Some v.
Proof.
  intros Hv. destruct (manager_on_boot_run self s) as [tr0 ->].
  unfold final at 1. simpl.
  apply (for_each_preserves
           (fun s' : gmap (string * string) string =>
              s' !! ("wo-processed", k) = Some v)).
  - intros wo s' Hs'. by apply boot_step_keeps_processed.
  - rewrite workers_refreshed_lookup. by rewrite decide_False.
Qed.

(** X11: when the sweep returns, [wo-processing] is empty. *)
Theorem X11_completed_boot_empties_processing (self : EnclaveManager)
    (s : gmap (string * string) string) (k : string) :
  outcome (manager_on_boot self s) = Ret tt →
  final (manager_on_boot self s) !! ("wo-processing", k) = None.
Proof.
  destruct (manager_on_boot_run self s) as [tr0 ->].
  set (s1 := workers_refreshed self s).
  set (l := kv_sorted_keys "wo-processing" s1).
  pose proof (boot_loop_effect l s1 (NoDup_kv_sorted_keys _ _)) as Hloop.
  pose proof (elem_of_kv_sorted_keys "wo-processing" s1 k) as Hel.
  fold l in Hel.
  destruct (for_each l boot_step s1) as [[r s2] tr].
  unfold outcome, final. simpl. intros ->.
  destruct Hloop as (Hproc & _ & Hframe).
  destruct (decide (k ∈ l)) as [Hin|Hnin]; [by apply Hproc|].
  rewrite Hframe by (by left).
  destruct (s1 !! ("wo-processing", k)) eqn:Hk; [|done].
  exfalso. apply Hnin, Hel. eauto.
Qed.

(** X12: an interrupted work order that has a stored response is settled,
    not rescheduled: when its iteration returns, the marker is gone, the
    scheduled table is as before, and [wo-processed] holds the status that
    was there, or else FAILED for a malformed or failed response and
    SUCCESS otherwise. *)
Theorem X12_boot_settles_answered_entry (wo text : string)
    (s : gmap (string * string) string) :
  s !! ("wo-responses", wo) = Some text →
  outcome (boot_step wo s) = Ret tt →
  final (boot_step wo s) !! ("wo-processed", wo) =
    Some (default (boot_verdict text) (s !! ("wo-processed", wo))) ∧
  final (boot_step wo s) !! ("wo-scheduled", wo) = s !! ("wo-scheduled", wo) ∧
  final (boot_step wo s) !! ("wo-processing", wo) = None.
Proof.
  intros Hresp. unfold boot_step, boot_verdict. run_monad.
  rewrite Hresp.
  destruct (json_loads text) as [wo_resp|]; simpl.
  2: { destruct (s !! ("wo-processed", wo)) as [v|] eqn:Hv; simpl; intros _;
       rewrite ?lookup_delete_eq; rewrite ?lookup_delete_ne by done;
       rewrite ?lookup_insert_eq; rewrite ?lookup_insert_ne by done; done. }
  destruct (response_failed wo_resp) as [[|]|]; simpl; [| |done].
  { destruct (s !! ("wo-processed", wo)) as [v|] eqn:Hv; simpl; intros _;
      rewrite ?lookup_delete_eq; rewrite ?lookup_delete_ne by done;
      rewrite ?lookup_insert_eq; rewrite ?lookup_insert_ne by done; done. }
  destruct (truthy (s !! ("wo-receipts", wo))).
  - pose proof (update_receipt_effect wo (JStr text) s) as Heff.
    destruct (__update_receipt wo (JStr text) s) as [[[[]|e] s2] tr];
      simpl in *; [|done].
    assert (s2 !! ("wo-processed", wo) = s !! ("wo-processed", wo) ∧
            s2 !! ("wo-scheduled", wo) = s !! ("wo-scheduled", wo))
      as [Hp Hs].
    { destruct Heff as [->|[v ->]]; [done|]. by rewrite !lookup_insert_ne. }
    destruct (s !! ("wo-processed", wo)) as [v|] eqn:Hv; simpl; intros _;
      rewrite ?lookup_delete_eq; rewrite ?lookup_delete_ne by done;
      rewrite ?lookup_insert_eq; rewrite ?lookup_insert_ne by done; done.
  - simpl.
    destruct (s !! ("wo-processed", wo)) as [v|] eqn:Hv; simpl; intros _;
      rewrite ?lookup_delete_eq; rewrite ?lookup_delete_ne by done;
      rewrite ?lookup_insert_eq; rewrite ?lookup_insert_ne by done; done.
Qed.

(** X13: the boot sweep hands the stored response text, not the parsed
    response, to [__update_receipt].  For an entry with a receipt whose
    well-formed, non-failed response text contains the word error, the test
    ["error" in wo_json_resp] is a substring test that succeeds and the
    subscript that follows raises [TypeError]: the iteration raises and
    writes nothing. *)
Theorem X13_boot_receipt_update_raises_on_error_text (wo text : string)
    (wo_resp : json) (s : gmap (string * string) string) :
  s !! ("wo-responses", wo) = Some text →
  json_loads text = Some wo_resp →
  response_failed wo_resp = Ret false →
  truthy (s !! ("wo-receipts", wo)) = true →
  is_substring "error" text = true →
  outcome (boot_step wo s) = Raise TypeError ∧
  final (boot_step wo s) = s.
Proof.
  intros Hresp Hparse Hfailed Hreceipt Hsub.
  assert (response_is_error (JStr text) = Raise TypeError) as Herr.
  { unfold response_is_error, py_contains, rbind. by rewrite Hsub. }
  unfold boot_step, __update_receipt. run_monad.
  rewrite Hresp, Hparse. simpl. rewrite Hfailed. simpl.
  rewrite Hreceipt. simpl. rewrite Hreceipt. by rewrite Herr.
Qed.
End BootFacts.

(** ** The two drivers of the transition *)

Section DriverFacts.
Context {codec : JsonCodec} {ext : Externals}.

(** The first key of a table in key order is below every key of it. *)
Lemma kv_sorted_keys_head_le (t first : string) (rest : list string)
    (s : gmap (string * string) string) (k : string) :
  kv_sorted_keys t s = first :: rest →
  is_Some (s !! (t, k)) → String.le first k.
Proof.
  intros Hkeys Hk.
  pose proof (Sorted_kv_sorted_keys t s) as Hsorted.
  apply elem_of_kv_sorted_keys in Hk. rewrite Hkeys in Hk, Hsorted.
  apply (Sorted_StronglySorted String.le) in Hsorted.
  apply StronglySorted_inv in Hsorted as [_ Hall].
  apply elem_of_cons in Hk as [->|Hin]; [done|].
  rewrite Forall_forall in Hall. by apply Hall.
Qed.

(** X14: the synchronous driver serves the requested id only when it is the
    first scheduled id in key order.  If another scheduled id sorts before
    it, the call returns [None] and leaves the store as it was, although the
    requested id is scheduled. *)
Theorem X14_sync_ignores_id_behind_another (process_wo_id other : string)
    (s : gmap (string * string) string) :
  is_Some (s !! ("wo-scheduled", other)) →
  String.le other process_wo_id →
  other ≠ process_wo_id →
  outcome (process_work_order_sync process_wo_id s) = Ret None ∧
  final (process_work_order_sync process_wo_id s) = s.
Proof.
  intros Hother Hle Hne.
  unfold process_work_order_sync. run_monad.
  destruct (kv_sorted_keys "wo-scheduled" s) as [|first rest] eqn:Hkeys;
    simpl; [done|].
  case_bool_decide as Hfirst; [|done]. subst first. exfalso.
  pose proof (kv_sorted_keys_head_le _ _ _ _ _ Hkeys Hother) as Hge.
  apply Hne. by apply (anti_symm String.le).
Qed.


(** X16: with nothing scheduled, both drivers return at once and leave the
    store as it was. *)
Theorem X16_drivers_idle_on_empty_schedule (process_wo_id : string)
    (s : gmap (string * string) string) :
  (∀ k, s !! ("wo-scheduled", k) = None) →
  process_work_orders s = (Ret tt, s, [KvLookup "wo-scheduled"]) ∧
  process_work_order_sync process_wo_id s
    = (Ret None, s, [KvLookup "wo-scheduled"]).
Proof.
  intros Hnone. apply kv_sorted_keys_nil in Hnone.
  unfold process_work_orders, process_work_order_sync. run_monad.
  by rewrite Hnone.
Qed.

Lemma requests_not_written_by_id : "wo-requests" ∉ by_id_written.
Proof.
  unfold by_id_written. rewrite !elem_of_cons, elem_of_nil.
  by intros [?|[?|[?|[?|[?|?]]]]].
Qed.

(** The polling loop over a list of ids without duplicates. *)
Lemma poll_loop_effect (l : list string) :
  ∀ s : gmap (string * string) string, NoDup l →
  match for_each l (fun wo_id => process_work_order_by_id wo_id ;;; ret tt) s
  with
  | (Ret _, s', _) =>
      (∀ k, k ∈ l → is_Some (s !! ("wo-requests", k)) →
            s' !! ("wo-scheduled", k) = None ∧
            s' !! ("wo-processing", k) = None ∧
            (s' !! ("wo-processed", k) = Some "FAILED" ∨
             s' !! ("wo-processed", k) = Some "SUCCESS")) ∧
      (∀ k, k ∈ l → s !! ("wo-requests", k) = None →
            s' !! ("wo-scheduled", k) = s !! ("wo-scheduled", k) ∧
            s' !! ("wo-processing", k) = None) ∧
      (∀ t k, k ∉ l → s' !! (t, k) = s !! (t, k))
  | (Raise e, s', _) =>
      ∃ pre k post,
        l = pre ++ k :: post ∧
        is_Some (s !! ("wo-requests", k)) ∧
        s' !! ("wo-processing", k) = Some "PROCESSING" ∧
        s' !! ("wo-scheduled", k) = None ∧
        (∀ t j, j ∉ pre → j ≠ k → s' !! (t, j) = s !! (t, j))
  end.
Proof.
  induction l as [|x rest IH]; intros s Hnd.
  { simpl. unfold ret. split_and!; [by intros ? ?%elem_of_nil..|done]. }
  apply NoDup_cons in Hnd as [Hx Hrest].
  simpl. unfold bind at 1. unfold bind at 1. unfold ret at 1.
  pose proof (by_id_frame x s) as Hframe.
  pose proof (by_id_returned_effect x) as Hret.
  pose proof (by_id_raised_effect x) as Hraise.
  destruct (process_work_order_by_id x s) as [[[v|e] s1] tr1] eqn:Hrun.
  - unfold final, outcome in *. simpl in *.
    specialize (IH s1 Hrest).
    destruct (for_each rest _ s1) as [[[[]|e] s2] tr2].
    + destruct IH as (Hdone & Hskip & Hfr). split_and!.
      * intros k [->|Hk]%elem_of_cons Hreq.
        -- rewrite !Hfr by done.
           specialize (Hret v s Hreq). rewrite Hrun in Hret.
           by apply Hret.
        -- apply Hdone; [done|]. rewrite Hframe; [done|].
           right. apply requests_not_written_by_id.
      * intros k [->|Hk]%elem_of_cons Hreq.
        -- rewrite !Hfr by done.
           assert (process_work_order_by_id x s
                   = (Ret None, delete ("wo-processing", x) s,
                      [KvSet "wo-processing" x "PROCESSING";
                       KvGet "wo-requests" x; KvRemove "wo-processing" x]))
             as Hnone.
           { unfold process_work_order_by_id. run_monad.
             rewrite lookup_insert_ne by done. rewrite Hreq. simpl.
             by rewrite delete_insert_eq. }
           rewrite Hnone in Hrun. simplify_eq.
           rewrite lookup_delete_eq. by rewrite lookup_delete_ne.
        -- assert (s1 !! ("wo-requests", k) = None) as Hreq1.
           { rewrite Hframe; [done|].
             right. apply requests_not_written_by_id. }
           destruct (Hskip k Hk Hreq1) as [Hs Hp].
           split; [|done]. rewrite Hs. apply Hframe.
           left. by intros ->.
      * intros t k Hk. rewrite Hfr.
        -- apply Hframe. left. intros ->. apply Hk. by left.
        -- intros Hin. apply Hk. by right.
    + destruct IH as (pre & k & post & -> & Hreq & Hmark & Hsched & Hfr).
      exists (x :: pre), k, post. split_and!; [done| |done|done|].
      * rewrite <- Hframe; [done|].
        right. apply requests_not_written_by_id.
      * intros t j Hj Hjk. rewrite Hfr; [|intros Hin; apply Hj; by right|done].
        apply Hframe. left. intros ->. apply Hj. by left.
  - specialize (Hraise e s). rewrite Hrun in Hraise.
    unfold outcome, final in Hraise. simpl in Hraise.
    destruct (Hraise eq_refl) as (Hreq & Hmark & Hsched & _).
    exists [], x, rest. split_and!; [done|done|done|done|].
    intros t j _ Hj. unfold final in Hframe. simpl in Hframe.
    apply Hframe. by left.
Qed.

(** [process_work_orders] is the loop over the scheduled ids read at its
    start. *)
Lemma process_work_orders_run (s : gmap (string * string) string) :
  let run :=
    for_each (kv_sorted_keys "wo-scheduled" s)
      (fun wo_id => process_work_order_by_id wo_id ;;; ret tt) s in
  process_work_orders s =
    (outcome run, final run, KvLookup "wo-scheduled" :: trace run).
Proof.
  intros run. subst run.
  unfold process_work_orders, bind at 1, kv_lookup at 1.
  destruct (kv_sorted_keys "wo-scheduled" s) as [|first rest]; [done|].
  by destruct (for_each _ _ s) as [[r s1] tr].
Qed.

(** X17: a polling sweep works on the ids that were scheduled when it
    started and on nothing else: every entry of any other id is left as it
    was, however the sweep ends. *)
Theorem X17_poll_touches_only_scheduled_ids
    (s : gmap (string * string) string) (t k : string) :
  s !! ("wo-scheduled", k) = None →
  final (process_work_orders s) !! (t, k) = s !! (t, k).
Proof.
  intros Hk. rewrite process_work_orders_run. unfold final at 1. simpl.
  set (l := kv_sorted_keys "wo-scheduled" s).
  assert (k ∉ l) as Hnin.
  { intros Hin%elem_of_kv_sorted_keys. rewrite Hk in Hin. by destruct Hin. }
  pose proof (poll_loop_effect l s (NoDup_kv_sorted_keys _ _)) as Hloop.
  destruct (for_each l _ s) as [[[[]|e] s1] tr]; unfold final; simpl.
  - destruct Hloop as (_ & _ & Hfr). by apply Hfr.
  - destruct Hloop as (pre & j & post & Hl & _ & _ & _ & Hfr).
    apply Hfr.
    + intros Hin. apply Hnin. rewrite Hl. apply elem_of_app. by left.
    + intros ->. apply Hnin. rewrite Hl. apply elem_of_app. right. by left.
Qed.

(** X18: an exception raised while one work order is processed ends the
    polling sweep, the store answering every call.  The sweep raises at some
    scheduled id that has a request; that id is left marked in
    [wo-processing] and out of [wo-scheduled], and the scheduled ids after it
    in key order are not touched at all. *)
Theorem X18_poll_stops_at_first_exception
    (s : gmap (string * string) string) (e : exn) :
  outcome (process_work_orders s) = Raise e →
  ∃ pre k post,
    kv_sorted_keys "wo-scheduled" s = pre ++ k :: post ∧
    is_Some (s !! ("wo-requests", k)) ∧
    final (process_work_orders s) !! ("wo-processing", k) = Some "PROCESSING" ∧
    final (process_work_orders s) !! ("wo-scheduled", k) = None ∧
    ∀ t j, j ∈ post → final (process_work_orders s) !! (t, j) = s !! (t, j).
Proof.
  rewrite process_work_orders_run. unfold outcome at 1, final at 1 2 3. simpl.
  set (l := kv_sorted_keys "wo-scheduled" s).
  pose proof (poll_loop_effect l s (NoDup_kv_sorted_keys _ _)) as Hloop.
  pose proof (NoDup_kv_sorted_keys "wo-scheduled" s) as Hnd. fold l in Hnd.
  destruct (for_each l _ s) as [[[[]|e'] s1] tr]; unfold outcome, final; simpl;
    [done|].
  intros _.
  destruct Hloop as (pre & k & post & Hl & Hreq & Hmark & Hsched & Hfr).
  exists pre, k, post. split_and!; [done..|].
  intros t j Hj. rewrite Hl in Hnd.
  apply NoDup_app in Hnd as (_ & Hdisj & Hnd2).
  apply NoDup_cons in Hnd2 as [Hk _].
  apply Hfr.
  - intros Hin. apply (Hdisj j Hin). by right.
  - by intros ->.
Qed.

End DriverFacts.

(** ** The KME requester and the signup: further facts *)

Section RequesterFacts.
Context {codec : JsonCodec} {kme : KmeExternals}.

(** The first two steps when the work-order request cannot be built. *)
Lemma steps_unbuilt {St : Type} (rnd : Entropy) (nonce : string)
    (report : json) (encryption_key verifying_key : string) (st : St)
    (e : exn) :
  (_construct_wo_req rnd (nonce_in_data nonce) "kme-uid" encryption_key
     (session_key rnd) (session_iv rnd) = Raise e →
   get_unique_verification_key rnd nonce encryption_key verifying_key st
     = (Raise e, st, [])) ∧
  (_construct_wo_req rnd (report_in_data report) "kme-reg" encryption_key
     (session_key rnd) (session_iv rnd) = Raise e →
   register_wo_processor rnd report encryption_key verifying_key st
     = (Raise e, st, [])).
Proof.
  split; intros Hreq.
  - unfold get_unique_verification_key, nonce_in_data in *.
    unfold bind, lift. by rewrite Hreq.
  - unfold register_wo_processor, report_in_data in *.
    unfold bind, lift. by rewrite Hreq.
Qed.

(** X20: [get_unique_verification_key] hands out a value other than [None]
    only for a response whose [result] passed signature verification with
    the given verifying key; the value is then the ["data"] field of the
    first element of the result decrypted with the session key and IV of
    this request. *)
Theorem X20_unique_key_only_from_verified_response {St : Type}
    (rnd : Entropy) (nonce encryption_key verifying_key : string) (st : St)
    (v : json) :
  outcome (get_unique_verification_key rnd nonce encryption_key
             verifying_key st) = Ret v →
  v ≠ JNull →
  ∃ wo_req response wo_res decrypted first,
    _construct_wo_req rnd (nonce_in_data nonce) "kme-uid" encryption_key
      (session_key rnd) (session_iv rnd) = Ret wo_req ∧
    _postmsg (json_dumps None
                (rpc_request rnd "GetUniqueVerificationKey"
                   (JObj [("wo_request", wo_req)]))) = Ret response ∧
    py_getitem response "result" = Ret wo_res ∧
    verify_signature wo_res verifying_key = Ret PASSED ∧
    decrypted_response wo_res (session_key rnd) (session_iv rnd)
      = Ret decrypted ∧
    py_getitem_int decrypted 0 = Ret first ∧
    py_getitem first "data" = Ret v.
Proof.
  intros Hout Hv.
  destruct (_construct_wo_req rnd (nonce_in_data nonce) "kme-uid"
              encryption_key (session_key rnd) (session_iv rnd))
    as [wo_req|e] eqn:Hreq.
  2: { rewrite (proj1 (steps_unbuilt rnd nonce JNull encryption_key
                         verifying_key st e) Hreq) in Hout. done. }
  rewrite (get_unique_verification_key_posts _ _ _ _ _ _ Hreq) in Hout.
  destruct (_postmsg _) as [response|] eqn:Hpost; [|done].
  destruct (py_contains "result" response) as [[|]|]; [| |done].
  2: { unfold outcome in Hout. simpl in Hout. congruence. }
  destruct (py_getitem response "result") as [wo_res|] eqn:Hres; [|done].
  destruct (verify_signature wo_res verifying_key) as [[|member]|] eqn:Hver;
    [| |done].
  2: { unfold outcome in Hout. simpl in Hout. congruence. }
  unfold outcome in Hout. simpl in Hout.
  destruct (decrypted_response wo_res _ _) as [decrypted|] eqn:Hdec;
    simpl in Hout; [|done].
  destruct (py_getitem_int decrypted 0) as [first|] eqn:Hfirst;
    simpl in Hout; [|done].
  by exists wo_req, response, wo_res, decrypted, first.
Qed.

(** X21: [register_wo_processor] hands out a value other than [None] only
    for a response whose [result] passed signature verification; the value
    is the decrypted result. *)
Theorem X21_registration_only_from_verified_response {St : Type}
    (rnd : Entropy) (report : json) (encryption_key verifying_key : string)
    (st : St) (v : json) :
  outcome (register_wo_processor rnd report encryption_key
             verifying_key st) = Ret v →
  v ≠ JNull →
  ∃ wo_req response wo_res,
    _construct_wo_req rnd (report_in_data report) "kme-reg" encryption_key
      (session_key rnd) (session_iv rnd) = Ret wo_req ∧
    _postmsg (json_dumps None
                (rpc_request rnd "RegisterWorkOrderProcessor"
                   (JObj [("wo_request", wo_req)]))) = Ret response ∧
    py_getitem response "result" = Ret wo_res ∧
    verify_signature wo_res verifying_key = Ret PASSED ∧
    decrypted_response wo_res (session_key rnd) (session_iv rnd) = Ret v.
Proof.
  intros Hout Hv.
  destruct (_construct_wo_req rnd (report_in_data report) "kme-reg"
              encryption_key (session_key rnd) (session_iv rnd))
    as [wo_req|e] eqn:Hreq.
  2: { rewrite (proj2 (steps_unbuilt rnd "" report encryption_key
                         verifying_key st e) Hreq) in Hout. done. }
  rewrite (register_wo_processor_posts _ _ _ _ _ _ Hreq) in Hout.
  destruct (_postmsg _) as [response|] eqn:Hpost; [|done].
  destruct (py_contains "result" response) as [[|]|]; [| |done].
  2: { unfold outcome in Hout. simpl in Hout. congruence. }
  destruct (py_getitem response "result") as [wo_res|] eqn:Hres; [|done].
  destruct (verify_signature wo_res verifying_key) as [[|member]|] eqn:Hver;
    [| |done].
  2: { unfold outcome in Hout. simpl in Hout. congruence. }
  unfold outcome in Hout. simpl in Hout.
  by exists wo_req, response, wo_res.
Qed.

(** X22: a step of the requester sends at most one message and keeps no
    state.  The first two steps post exactly their JSON-RPC request when the
    work-order request could be built, and post nothing and raise when it
    could not; the third step always posts exactly one. *)
Theorem X22_each_step_posts_one_request {St : Type} (rnd : Entropy)
    (nonce : string) (report wo_request : json)
    (encryption_key verifying_key : string) (st : St) :
  let first :=
    get_unique_verification_key rnd nonce encryption_key verifying_key st in
  let second :=
    register_wo_processor rnd report encryption_key verifying_key st in
  let third :=
    preprocess_work_order rnd wo_request encryption_key verifying_key st in
  (final first = st ∧
   match _construct_wo_req rnd (nonce_in_data nonce) "kme-uid" encryption_key
           (session_key rnd) (session_iv rnd) with
   | Ret wo_req =>
       trace first = [Posted (rpc_request rnd "GetUniqueVerificationKey"
                                (JObj [("wo_request", wo_req)]))]
   | Raise e => outcome first = Raise e ∧ trace first = []
   end) ∧
  (final second = st ∧
   match _construct_wo_req rnd (report_in_data report) "kme-reg"
           encryption_key (session_key rnd) (session_iv rnd) with
   | Ret wo_req =>
       trace second = [Posted (rpc_request rnd "RegisterWorkOrderProcessor"
                                 (JObj [("wo_request", wo_req)]))]
   | Raise e => outcome second = Raise e ∧ trace second = []
   end) ∧
  (final third = st ∧
   trace third = [Posted (preprocess_request rnd wo_request encryption_key)]).
Proof.
  intros first second third. subst first second third.
  pose proof (steps_unbuilt rnd nonce report encryption_key verifying_key st)
    as Hunbuilt.
  split_and!.
  - destruct (_construct_wo_req rnd (nonce_in_data nonce) "kme-uid"
                encryption_key (session_key rnd) (session_iv rnd))
      as [wo_req|e] eqn:Hreq.
    + rewrite (get_unique_verification_key_posts _ _ _ _ _ _ Hreq).
      by repeat case_match.
    + by rewrite (proj1 (Hunbuilt e)).
  - destruct (_construct_wo_req rnd (nonce_in_data nonce) "kme-uid"
                encryption_key (session_key rnd) (session_iv rnd))
      as [wo_req|e] eqn:Hreq.
    + rewrite (get_unique_verification_key_posts _ _ _ _ _ _ Hreq).
      by repeat case_match.
    + by rewrite (proj1 (Hunbuilt e)).
  - destruct (_construct_wo_req rnd (report_in_data report) "kme-reg"
                encryption_key (session_key rnd) (session_iv rnd))
      as [wo_req|e] eqn:Hreq.
    + rewrite (register_wo_processor_posts _ _ _ _ _ _ Hreq).
      by repeat case_match.
    + by rewrite (proj2 (Hunbuilt e)).
  - destruct (_construct_wo_req rnd (report_in_data report) "kme-reg"
                encryption_key (session_key rnd) (session_iv rnd))
      as [wo_req|e] eqn:Hreq.
    + rewrite (register_wo_processor_posts _ _ _ _ _ _ Hreq).
      by repeat case_match.
    + by rewrite (proj2 (Hunbuilt e)).
  - rewrite preprocess_work_order_posts. by destruct (_postmsg _).
  - rewrite preprocess_work_order_posts. by destruct (_postmsg _).
Qed.
End RequesterFacts.

Section SignupFacts.
Context {codec : JsonCodec} {kme : KmeExternals}.

(** X23: [_create_signup_data] returns signup data only along one path: the
    requester returned a reply, its second and third fields are the key and
    the signature, the enclave's check of that signature answered 0, and
    the data was created from that very key.  The manager then holds the
    key, the signature and the enclave measurement, and the check precedes
    the creation. *)
Theorem X23_signup_data_only_from_verified_key
    (requester : string → M WpeManager kme_event json)
    (st : WpeManager) (signup_data : json) :
  outcome (_create_signup_data requester st) = Ret (Some signup_data) →
  ∃ response st1 tr1 key signature measurement,
    requester (GenerateNonce 32) st = (Ret response, st1, tr1) ∧
    split_field response 1 = Ret key ∧
    split_field response 2 = Ret signature ∧
    VerifyUniqueIdSignature key signature = 0 ∧
    get_enclave_measurement = Ret measurement ∧
    create_enclave_signup_data key = Ret signup_data ∧
    final (_create_signup_data requester st)
      = signed_up key signature measurement ∧
    trace (_create_signup_data requester st)
      = tr1 ++ [CheckedUniqueId key signature; CreatedSignupData key].
Proof.
  unfold _create_signup_data, bind, lift, ret, signed_up.
  destruct new_enclave_info as [[]|]; [|done].
  destruct (requester (GenerateNonce 32) st) as [[[response|] st1] tr1];
    [|done].
  assert (∀ key signature, split_field response 1 = Ret key →
            split_field response 2 = Ret signature → response ≠ JNull)
    as Hnn by (intros ?? Hk _ ->; done).
  destruct (split_field response 1) as [key|] eqn:Hkey.
  2: { destruct response; done. }
  destruct (split_field response 2) as [signature|] eqn:Hsig.
  2: { destruct response; simpl in *; try done; by rewrite Hsig. }
  specialize (Hnn key signature eq_refl eq_refl).
  destruct (Z.eqb_spec (VerifyUniqueIdSignature key signature) 0)
    as [Hzero|Hbad].
  2: { destruct response; simpl in *; try done; rewrite Hsig; simpl;
       destruct (Z.eqb_spec (VerifyUniqueIdSignature key signature) 0);
       done. }
  destruct get_enclave_measurement as [measurement|] eqn:Hm.
  2: { destruct response; simpl in *; try done; rewrite Hsig; simpl;
       rewrite Hzero; done. }
  destruct (create_enclave_signup_data key) as [d|] eqn:Hd.
  2: { destruct response; simpl in *; try done; rewrite Hsig; simpl;
       rewrite Hzero; simpl; rewrite Hd; done. }
  intros Hout.
  exists response, st1, tr1, key, signature, measurement.
  destruct response; simpl in *; try done; rewrite Hsig in *; simpl in *;
    rewrite Hzero in *; simpl in *; rewrite Hd in *;
    unfold outcome, final, trace in *; simpl in *; simplify_eq;
    by rewrite ?app_nil_r.
Qed.

(** X24: a reply that does not have the three fields is not turned into
    [None]: a reply string with fewer than three space-separated fields
    raises [IndexError], and a reply that is neither a string nor [None]
    raises [AttributeError]. *)
Theorem X24_signup_raises_on_short_reply
    (requester : string → M WpeManager kme_event json)
    (st st1 : WpeManager) (tr1 : list kme_event) (response : json) :
  new_enclave_info = Ret tt →
  requester (GenerateNonce 32) st = (Ret response, st1, tr1) →
  response ≠ JNull →
  (∀ text, response = JStr text →
           (length (py_split " "%char text) < 3)%nat →
           outcome (_create_signup_data requester st) = Raise IndexError) ∧
  ((∀ text, response ≠ JStr text) →
   outcome (_create_signup_data requester st) = Raise AttributeError).
Proof.
  intros Hinfo Hreq Hnn.
  unfold _create_signup_data, bind, lift, ret. rewrite Hinfo, Hreq.
  split.
  - intros text -> Hlen. simpl.
    destruct (py_split " "%char text !! 1%nat) as [key|] eqn:Hkey; [|done].
    simpl.
    destruct (py_split " "%char text !! 2%nat) as [signature|] eqn:Hsig;
      [|done].
    apply lookup_lt_Some in Hsig. lia.
  - intros Hstr. destruct response; try done. by destruct (Hstr s).
Qed.
End SignupFacts.

(** ** Command-line options *)

Lemma assoc_set_eq (k : string) (v : json) (kvs : list (string * json)) :
  assoc k (assoc_set k v kvs) = Some v.
Proof.
  induction kvs as [|[k' v'] rest IH]; simpl.
  - by rewrite String.eqb_refl.
  - destruct (String.eqb k k') eqn:Hk; simpl.
    + by rewrite String.eqb_refl.
    + by rewrite Hk.
Qed.

Lemma assoc_set_ne (k k' : string) (v : json) (kvs : list (string * json)) :
  k' ≠ k → assoc k' (assoc_set k v kvs) = assoc k' kvs.
Proof.
  intros Hne. induction kvs as [|[k0 v0] rest IH]; simpl.
  - by apply String.eqb_neq in Hne as ->.
  - destruct (String.eqb k k0) eqn:Hk; simpl.
    + apply String.eqb_eq in Hk as <-.
      by apply String.eqb_neq in Hne as ->.
    + by rewrite IH.
Qed.

Section CommandLineFacts.
Variable str_upper : string → string.

(** X25: for a configuration without a [Logging] block,
    [parse_command_line] installs one: the log file is the [--logfile]
    option or else [__screen__], the level is the [--loglevel] option in
    upper case or else INFO; with no [--lmdb_url] every other block of the
    configuration is as before. *)
Theorem X25_command_line_installs_logging (kvs : list (string * json))
    (options : Options) :
  assoc "Logging" kvs = None →
  truthy (lmdb_url options) = false →
  ∃ kvs',
    parse_command_line str_upper (JObj kvs) options = Ret (JObj kvs') ∧
    assoc "Logging" kvs' =
      Some (JObj [("LogFile",
                   JStr (if truthy (logfile options)
                         then option_text (logfile options)
                         else "__screen__"));
                  ("LogLevel",
                   JStr (if truthy (loglevel options)
                         then str_upper (option_text (loglevel options))
                         else "INFO"))]) ∧
    ∀ k, k ≠ "Logging" → assoc k kvs' = assoc k kvs.
Proof.
  intros Hlog Hurl.
  unfold parse_command_line, py_dict_get, rbind.
  rewrite Hlog. simpl. rewrite Hurl.
  destruct (truthy (logfile options)), (truthy (loglevel options));
    unfold py_setitem2, py_getitem; simpl;
    rewrite ?assoc_set_eq; simpl; rewrite ?assoc_set_eq; simpl;
    eexists; (split; [reflexivity|]);
    (split; [by rewrite assoc_set_eq
            |intros k Hk; by rewrite !assoc_set_ne by done]).
Qed.

(** X26: [--lmdb_url] on a configuration that has no [KvStorage] block
    never returns.  The option is stored by subscripting the block, which is
    not created when missing, so the call raises [KeyError] there, whatever
    the [Logging] block and the other options are; the one exception is a
    [Logging] entry that is not a table with [--logfile] or [--loglevel]
    given, where storing that option raises [TypeError] before. *)
Theorem X26_command_line_needs_store_block (kvs : list (string * json))
    (options : Options) :
  assoc "KvStorage" kvs = None →
  truthy (lmdb_url options) = true →
  parse_command_line str_upper (JObj kvs) options =
    Raise (if logging_is_table kvs
              || negb (truthy (logfile options) || truthy (loglevel options))
           then KeyError else TypeError).
Proof.
  intros Hstore Hurl.
  unfold parse_command_line, py_dict_get, rbind, logging_is_table.
  destruct (assoc "Logging" kvs) as [[]|] eqn:Hlog; simpl; rewrite Hurl;
    destruct (truthy (logfile options)), (truthy (loglevel options));
    unfold py_setitem2, py_getitem; simpl;
    repeat (first [ rewrite Hlog | rewrite Hstore | rewrite assoc_set_eq
                  | rewrite assoc_set_ne by done ]; simpl);
    done.
Qed.
End CommandLineFacts.

(** ** The further facts on concrete stores *)

Lemma X1_witness :
  ("wo1" ≠ "wo1" ∨ "wo-requests" ∉ by_id_written) ∧
  final (process_work_order_by_id (codec:=scenario_codec)
           (ext:=scenario_externals) "wo1" scenario_A)
    !! ("wo-requests", "wo1") = scenario_A !! ("wo-requests", "wo1").
Proof.
  assert ("wo1" ≠ "wo1" ∨ "wo-requests" ∉ by_id_written) as Hk
    by (right; apply requests_not_written_by_id).
  split; [exact Hk|].
  exact (X1_transition_touches_only_its_id (codec:=scenario_codec)
           (ext:=scenario_externals) "wo1" scenario_A "wo-requests" "wo1" Hk).
Defined.

Lemma X2_witness :
  scenario_no_request !! ("wo-requests", "wo1") = None ∧
  outcome (process_work_order_by_id (codec:=scenario_codec)
             (ext:=scenario_externals) "wo1" scenario_no_request) = Ret None ∧
  final (process_work_order_by_id (codec:=scenario_codec)
           (ext:=scenario_externals) "wo1" scenario_no_request)
    !! ("wo-scheduled", "wo1") = scenario_no_request !! ("wo-scheduled", "wo1").
Proof.
  assert (scenario_no_request !! ("wo-requests", "wo1") = None) as Hreq
    by (vm_compute; reflexivity).
  pose proof (X2_missing_request_is_abandoned (codec:=scenario_codec)
                (ext:=scenario_externals) "wo1" scenario_no_request Hreq)
    as (Hout & _ & Hsched).
  split_and!; [exact Hreq|exact Hout|exact Hsched].
Defined.

Lemma X3_witness :
  scenario_A !! ("wo-requests", "wo1") = Some "{}" ∧
  final (process_work_order_by_id (codec:=scenario_codec)
           (ext:=scenario_externals) "wo1" scenario_A)
    !! ("wo-processed", "wo1") = Some "SUCCESS".
Proof.
  assert (scenario_A !! ("wo-requests", "wo1") = Some "{}") as Hreq
    by (vm_compute; reflexivity).
  split; [exact Hreq|].
  refine (proj1 (proj2
    (X3_transition_completes (codec:=scenario_codec)
       (ext:=scenario_externals) "wo1" "{}" ok_response_text
       (JObj [("result", JObj [])]) scenario_A Hreq _ _ _ _)));
    vm_compute; reflexivity.
Defined.

Lemma X4_witness :
  outcome (process_work_order_by_id (codec:=scenario_codec)
             (ext:=scenario_externals) "wo2" scenario_B) = Raise NameError ∧
  final (process_work_order_by_id (codec:=scenario_codec)
           (ext:=scenario_externals) "wo2" scenario_B)
    !! ("wo-scheduled", "wo2") = None.
Proof.
  assert (outcome (process_work_order_by_id (codec:=scenario_codec)
                     (ext:=scenario_externals) "wo2" scenario_B)
          = Raise NameError) as Hout by (vm_compute; reflexivity).
  split; [exact Hout|].
  exact (proj1 (proj2 (proj2
    (X4_raising_transition_leaves_marker (codec:=scenario_codec)
       (ext:=scenario_externals) "wo2" NameError scenario_B Hout)))).
Defined.

Lemma X5_witness :
  scenario_A !! ("wo-requests", "wo1") = Some "{}" ∧
  outcome (process_work_order_by_id (codec:=scenario_codec)
             (ext:=crashing_enclave) "wo1" scenario_A)
    = Raise UnboundLocalError.
Proof.
  assert (scenario_A !! ("wo-requests", "wo1") = Some "{}") as Hreq
    by (vm_compute; reflexivity).
  split; [exact Hreq|].
  refine (X5_enclave_exception_escapes (codec:=scenario_codec)
            (ext:=crashing_enclave) "wo1" "{}"
            (ExternalError "enclave crashed") scenario_A Hreq _ _);
    vm_compute; reflexivity.
Defined.

Lemma X7_witness :
  truthy (scenario_open_receipt !! ("wo-receipts", "wo1")) = true ∧
  final (__update_receipt (codec:=ledger_codec) (ext:=scenario_externals)
           "wo1" (JObj [("result", JObj [])]) scenario_open_receipt) =
    <[("wo-receipt-updates", "wo1") :=
        json_dumps (JsonCodec:=ledger_codec) None
          (JArr [JObj [("updateType", JInt 2)];
                 JObj [("workOrderId", JStr "wo1");
                       ("updateType", JInt 2)]])]> scenario_open_receipt ∧
  final (__update_receipt (codec:=ledger_codec) (ext:=scenario_externals)
           "wo1" (JObj [("result", JObj [])]) scenario_new_receipt) =
    <[("wo-receipt-updates", "wo1") :=
        json_dumps (JsonCodec:=ledger_codec) None
          (JArr [JObj [("workOrderId", JStr "wo1");
                       ("updateType", JInt 2)]])]> scenario_new_receipt ∧
  outcome (__update_receipt (codec:=ledger_codec) (ext:=scenario_externals)
             "wo1" (JObj [("result", JObj [])]) scenario_empty_updates)
    = Raise IndexError.
Proof.
  assert (truthy (scenario_open_receipt !! ("wo-receipts", "wo1")) = true)
    as Hreceipt by (vm_compute; reflexivity).
  split; [exact Hreceipt|]. split_and!.
  - refine (proj2 (proj1 (proj2
      (X7_receipt_update_appends (codec:=ledger_codec)
         (ext:=scenario_externals) "wo1" (JObj [("result", JObj [])])
         (JObj [("workOrderId", JStr "wo1"); ("updateType", JInt 2)])
         false scenario_open_receipt Hreceipt _ _))
      open_updates_text [JObj [("updateType", JInt 2)]]
      (JObj [("updateType", JInt 2)]) (JInt 2) _ _ _ _ _));
      vm_compute; reflexivity.
  - refine (proj2 (proj1
      (X7_receipt_update_appends (codec:=ledger_codec)
         (ext:=scenario_externals) "wo1" (JObj [("result", JObj [])])
         (JObj [("workOrderId", JStr "wo1"); ("updateType", JInt 2)])
         false scenario_new_receipt _ _ _) _));
      vm_compute; reflexivity.
  - refine (proj1 (proj2 (proj2
      (X7_receipt_update_appends (codec:=ledger_codec)
         (ext:=scenario_externals) "wo1" (JObj [("result", JObj [])])
         (JObj [("workOrderId", JStr "wo1"); ("updateType", JInt 2)])
         false scenario_empty_updates _ _ _)) "[]" _ _));
      vm_compute; reflexivity.
Defined.

Lemma X9_witness :
  ("wo-requests" ≠ "workers") ∧ ("wo-requests" ∉ boot_written) ∧
  final (manager_on_boot (codec:=scenario_codec) (ext:=scenario_externals)
           scenario_self scenario_C) !! ("wo-requests", "wo3")
    = scenario_C !! ("wo-requests", "wo3").
Proof.
  assert ("wo-requests" ≠ "workers") as Hw by discriminate.
  assert ("wo-requests" ∉ boot_written) as Ht.
  { unfold boot_written. rewrite !elem_of_cons, elem_of_nil.
    intros [H|[H|[H|[H|H]]]]; try discriminate H; exact H. }
  split_and!; [exact Hw|exact Ht|].
  exact (X9_boot_leaves_other_tables (codec:=scenario_codec)
           (ext:=scenario_externals) scenario_self scenario_C
           "wo-requests" "wo3" Hw Ht).
Defined.

Lemma X10_witness :
  scenario_settled !! ("wo-processed", "wo4") = Some "FAILED" ∧
  final (manager_on_boot (codec:=scenario_codec) (ext:=scenario_externals)
           scenario_self scenario_settled) !! ("wo-processed", "wo4")
    = Some "FAILED".
Proof.
  assert (scenario_settled !! ("wo-processed", "wo4") = Some "FAILED") as Hv
    by (vm_compute; reflexivity).
  split; [exact Hv|].
  exact (X10_boot_keeps_recorded_status (codec:=scenario_codec)
           (ext:=scenario_externals) scenario_self scenario_settled
           "wo4" "FAILED" Hv).
Defined.

Lemma X11_witness :
  outcome (manager_on_boot (codec:=scenario_codec) (ext:=scenario_externals)
             scenario_self scenario_C) = Ret tt ∧
  final (manager_on_boot (codec:=scenario_codec) (ext:=scenario_externals)
           scenario_self scenario_C) !! ("wo-processing", "wo3") = None.
Proof.
  assert (outcome (manager_on_boot (codec:=scenario_codec)
                     (ext:=scenario_externals) scenario_self scenario_C)
          = Ret tt) as Hout by (vm_compute; reflexivity).
  split; [exact Hout|].
  exact (X11_completed_boot_empties_processing (codec:=scenario_codec)
           (ext:=scenario_externals) scenario_self scenario_C "wo3" Hout).
Defined.

Lemma X12_witness :
  scenario_answered !! ("wo-responses", "wo5") = Some ok_response_text ∧
  outcome (boot_step (codec:=scenario_codec) (ext:=scenario_externals)
             "wo5" scenario_answered) = Ret tt ∧
  final (boot_step (codec:=scenario_codec) (ext:=scenario_externals)
           "wo5" scenario_answered) !! ("wo-processed", "wo5")
    = Some "SUCCESS".
Proof.
  assert (scenario_answered !! ("wo-responses", "wo5") = Some ok_response_text)
    as Hresp by (vm_compute; reflexivity).
  assert (outcome (boot_step (codec:=scenario_codec)
                     (ext:=scenario_externals) "wo5" scenario_answered)
          = Ret tt) as Hout by (vm_compute; reflexivity).
  split_and!; [exact Hresp|exact Hout|].
  exact (proj1 (X12_boot_settles_answered_entry (codec:=scenario_codec)
                  (ext:=scenario_externals) "wo5" ok_response_text
                  scenario_answered Hresp Hout)).
Defined.

Lemma X13_witness :
  scenario_error_answer !! ("wo-responses", "wo6") = Some error_response_text ∧
  is_substring "error" error_response_text = true ∧
  outcome (boot_step (codec:=ledger_codec) (ext:=scenario_externals)
             "wo6" scenario_error_answer) = Raise TypeError.
Proof.
  assert (scenario_error_answer !! ("wo-responses", "wo6")
          = Some error_response_text) as Hresp by (vm_compute; reflexivity).
  assert (is_substring "error" error_response_text = true) as Hsub
    by (vm_compute; reflexivity).
  split_and!; [exact Hresp|exact Hsub|].
  refine (proj1 (X13_boot_receipt_update_raises_on_error_text
                   (codec:=ledger_codec) (ext:=scenario_externals)
                   "wo6" error_response_text
                   (JObj [("error", JObj [("code", JInt 2)])])
                   scenario_error_answer Hresp _ _ _ Hsub));
    vm_compute; reflexivity.
Defined.

Lemma X14_witness :
  is_Some (scenario_two_scheduled !! ("wo-scheduled", "wo1")) ∧
  is_Some (scenario_two_scheduled !! ("wo-scheduled", "wo2")) ∧
  String.le "wo1" "wo2" ∧
  outcome (process_work_order_sync (codec:=scenario_codec)
             (ext:=scenario_externals) "wo2" scenario_two_scheduled)
    = Ret None ∧
  final (process_work_order_sync (codec:=scenario_codec)
           (ext:=scenario_externals) "wo2" scenario_two_scheduled)
    = scenario_two_scheduled.
Proof.
  assert (is_Some (scenario_two_scheduled !! ("wo-scheduled", "wo1")))
    as Hother by (exists "SCHEDULED"; vm_compute; reflexivity).
  assert (is_Some (scenario_two_scheduled !! ("wo-scheduled", "wo2")))
    as Hself by (exists "SCHEDULED"; vm_compute; reflexivity).
  assert (String.le "wo1" "wo2") as Hle by (vm_compute; exact I).
  assert ("wo1" ≠ "wo2") as Hne by discriminate.
  split_and!; [exact Hother|exact Hself|exact Hle|..];
    apply (X14_sync_ignores_id_behind_another (codec:=scenario_codec)
             (ext:=scenario_externals) "wo2" "wo1" scenario_two_scheduled
             Hother Hle Hne).
Defined.



Lemma X16_witness :
  (∀ k, (∅ : gmap (string * string) string) !! ("wo-scheduled", k) = None) ∧
  process_work_orders (codec:=scenario_codec) (ext:=scenario_externals) ∅
    = (Ret tt, ∅, [KvLookup "wo-scheduled"]).
Proof.
  assert (∀ k, (∅ : gmap (string * string) string)
                 !! ("wo-scheduled", k) = None) as Hnone
    by (intros k; apply lookup_empty).
  split; [exact Hnone|].
  exact (proj1 (X16_drivers_idle_on_empty_schedule (codec:=scenario_codec)
                  (ext:=scenario_externals) "wo1" ∅ Hnone)).
Defined.

Lemma X17_witness :
  scenario_C !! ("wo-scheduled", "wo3") = None ∧
  final (process_work_orders (codec:=scenario_codec)
           (ext:=scenario_externals) scenario_C) !! ("wo-processing", "wo3")
    = scenario_C !! ("wo-processing", "wo3").
Proof.
  assert (scenario_C !! ("wo-scheduled", "wo3") = None) as Hk
    by (vm_compute; reflexivity).
  split; [exact Hk|].
  exact (X17_poll_touches_only_scheduled_ids (codec:=scenario_codec)
           (ext:=scenario_externals) scenario_C "wo-processing" "wo3" Hk).
Defined.

Lemma X18_witness :
  outcome (process_work_orders (codec:=scenario_codec)
             (ext:=scenario_externals) scenario_bad_then_good)
    = Raise NameError ∧
  ∃ pre k post,
    kv_sorted_keys "wo-scheduled" scenario_bad_then_good = pre ++ k :: post ∧
    is_Some (scenario_bad_then_good !! ("wo-requests", k)) ∧
    final (process_work_orders (codec:=scenario_codec)
             (ext:=scenario_externals) scenario_bad_then_good)
      !! ("wo-processing", k) = Some "PROCESSING" ∧
    final (process_work_orders (codec:=scenario_codec)
             (ext:=scenario_externals) scenario_bad_then_good)
      !! ("wo-scheduled", k) = None ∧
    ∀ t j, j ∈ post →
      final (process_work_orders (codec:=scenario_codec)
               (ext:=scenario_externals) scenario_bad_then_good) !! (t, j)
        = scenario_bad_then_good !! (t, j).
Proof.
  assert (outcome (process_work_orders (codec:=scenario_codec)
                     (ext:=scenario_externals) scenario_bad_then_good)
          = Raise NameError) as Hout by (vm_compute; reflexivity).
  split; [exact Hout|].
  exact (X18_poll_stops_at_first_exception (codec:=scenario_codec)
           (ext:=scenario_externals) scenario_bad_then_good NameError Hout).
Defined.


Lemma X20_witness :
  outcome (get_unique_verification_key (codec:=scenario_codec)
             (kme:=scenario_kme) (St:=unit) scenario_entropy "nonce"
             "encryption-key" "kme-key" tt)
    = Ret (JStr "ok unique-key forged-signature") ∧
  ∃ wo_res,
    verify_signature (KmeExternals:=scenario_kme) wo_res "kme-key"
      = Ret PASSED.
Proof.
  assert (outcome (get_unique_verification_key (codec:=scenario_codec)
                     (kme:=scenario_kme) (St:=unit) scenario_entropy "nonce"
                     "encryption-key" "kme-key" tt)
          = Ret (JStr "ok unique-key forged-signature")) as Hout
    by (vm_compute; reflexivity).
  split; [exact Hout|].
  destruct (X20_unique_key_only_from_verified_response
              (codec:=scenario_codec) (kme:=scenario_kme) (St:=unit)
              scenario_entropy "nonce" "encryption-key" "kme-key" tt
              (JStr "ok unique-key forged-signature") Hout
              ltac:(discriminate))
    as (wo_req & response & wo_res & decrypted & first & _ & _ & _ & Hver & _).
  exists wo_res. exact Hver.
Defined.

Lemma X21_witness :
  outcome (register_wo_processor (codec:=scenario_codec)
             (kme:=scenario_kme) (St:=unit) scenario_entropy (JStr "report")
             "encryption-key" "kme-key" tt)
    = Ret (JArr [JObj [("data", JStr "ok unique-key forged-signature")]]) ∧
  ∃ wo_res,
    verify_signature (KmeExternals:=scenario_kme) wo_res "kme-key"
      = Ret PASSED.
Proof.
  assert (outcome (register_wo_processor (codec:=scenario_codec)
                     (kme:=scenario_kme) (St:=unit) scenario_entropy
                     (JStr "report") "encryption-key" "kme-key" tt)
          = Ret (JArr [JObj [("data",
                              JStr "ok unique-key forged-signature")]]))
    as Hout by (vm_compute; reflexivity).
  split; [exact Hout|].
  destruct (X21_registration_only_from_verified_response
              (codec:=scenario_codec) (kme:=scenario_kme) (St:=unit)
              scenario_entropy (JStr "report") "encryption-key" "kme-key" tt
              _ Hout ltac:(discriminate))
    as (wo_req & response & wo_res & _ & _ & _ & Hver & _).
  exists wo_res. exact Hver.
Defined.

Lemma X23_witness :
  outcome (_create_signup_data (kme:=honest_kme)
             (wpe_requester_with (codec:=scenario_codec) (kme:=honest_kme)
                scenario_entropy "encryption-key" "kme-key")
             fresh_manager)
    = Ret (Some (JObj [("verifying_key", JStr "unique-key")])) ∧
  final (_create_signup_data (kme:=honest_kme)
           (wpe_requester_with (codec:=scenario_codec) (kme:=honest_kme)
              scenario_entropy "encryption-key" "kme-key")
           fresh_manager)
    = signed_up "unique-key" "kme-signature" "mr-enclave".
Proof.
  assert (outcome (_create_signup_data (kme:=honest_kme)
                     (wpe_requester_with (codec:=scenario_codec)
                        (kme:=honest_kme) scenario_entropy
                        "encryption-key" "kme-key")
                     fresh_manager)
          = Ret (Some (JObj [("verifying_key", JStr "unique-key")])))
    as Hout by (vm_compute; reflexivity).
  split; [exact Hout|].
  destruct (X23_signup_data_only_from_verified_key (kme:=honest_kme)
              _ fresh_manager _ Hout)
    as (response & st1 & tr1 & key & signature & measurement
        & Hreq & Hkey & Hsig & _ & Hm & _ & Hfinal & _).
  rewrite Hfinal.
  vm_compute in Hreq. injection Hreq as <- _ _.
  vm_compute in Hkey, Hsig, Hm.
  injection Hkey as <-. injection Hsig as <-. injection Hm as <-.
  reflexivity.
Defined.

Lemma X24_witness :
  new_enclave_info (KmeExternals:=scenario_kme) = Ret tt ∧
  (length (py_split " "%char "ok unique-key") < 3)%nat ∧
  outcome (_create_signup_data (kme:=scenario_kme) short_reply fresh_manager)
    = Raise IndexError.
Proof.
  assert (new_enclave_info (KmeExternals:=scenario_kme) = Ret tt) as Hinfo
    by reflexivity.
  assert (length (py_split " "%char "ok unique-key") < 3)%nat as Hlen
    by (vm_compute; lia).
  split_and!; [exact Hinfo|exact Hlen|].
  refine (proj1 (X24_signup_raises_on_short_reply (kme:=scenario_kme)
                   short_reply fresh_manager fresh_manager []
                   (JStr "ok unique-key") Hinfo _ _)
            "ok unique-key" eq_refl Hlen).
  - reflexivity.
  - discriminate.
Defined.

Lemma X25_witness :
  assoc "Logging" [("KvStorage",
                    JObj [("remote_url", JStr "http://localhost:9090")])]
    = None ∧
  ∃ kvs',
    parse_command_line ascii_upper scenario_config_file
      {| logfile := None; loglevel := Some "debug"; lmdb_url := None |}
      = Ret (JObj kvs') ∧
    assoc "Logging" kvs' =
      Some (JObj [("LogFile", JStr "__screen__");
                  ("LogLevel", JStr "DEBUG")]).
Proof.
  assert (assoc "Logging"
            [("KvStorage",
              JObj [("remote_url", JStr "http://localhost:9090")])] = None)
    as Hlog by reflexivity.
  split; [exact Hlog|].
  destruct (X25_command_line_installs_logging ascii_upper _
              {| logfile := None; loglevel := Some "debug"; lmdb_url := None |}
              Hlog eq_refl) as (kvs' & Hrun & Hlogging & _).
  exists kvs'. split; [exact Hrun|exact Hlogging].
Defined.

Lemma X26_witness :
  assoc "KvStorage" [("Logging", JObj [("LogLevel", JStr "INFO")])] = None ∧
  parse_command_line ascii_upper scenario_config_no_store
    {| logfile := Some "manager.log"; loglevel := None;
       lmdb_url := Some "http://localhost:9090" |}
  = Raise KeyError.
Proof.
  split; [reflexivity|].
  exact (X26_command_line_needs_store_block ascii_upper
           [("Logging", JObj [("LogLevel", JStr "INFO")])]
           {| logfile := Some "manager.log"; loglevel := None;
              lmdb_url := Some "http://localhost:9090" |}
           eq_refl eq_refl).
Defined.
